(** * flaskserver: a shallow embedding of [server.py]

    The server keeps one process-wide [DownloadProgress] record and a
    handful of request handlers that call into external collaborators
    (the media extractor, the process utilities, the transcript service,
    the summarization model).  Handlers are embedded as functions over the
    progress record; every collaborator call is an explicit argument that
    either returns a value or raises. *)

From Stdlib Require Import ZArith QArith Lia.
From stdpp Require Import base option list gmap strings sorting pretty.

Local Open Scope Z_scope.

(** ** Python values, exceptions and outcomes *)

Module Py.

(** The dynamically typed values that flow through the handlers.  A
    float is represented by the rational it denotes: comparisons,
    sorting and [int()] are exact on that value; only the division of
    the progress callback rounds, and no property below depends on its
    digits. *)
Inductive pyval :=
| PyNone
| PyInt (z : Z)
| PyFloat (q : Q)
| PyStr (s : string).

(** Exceptions carry the class that decides which [except] clause
    catches them, and the text [str(e)] yields. *)
Inductive exn_class :=
| KeyError | TypeError | AttributeError | ValueError | ZeroDivisionError
| OtherException        (* any other subclass of Exception *)
| BaseOnly.             (* KeyboardInterrupt, SystemExit, ... *)

Record exn := Exn { exn_cls : exn_class; exn_msg : string }.

(** [except Exception] catches everything but the [BaseOnly] classes;
    a bare [except:] catches all of them. *)
Definition is_Exception (e : exn) : bool :=
  match exn_cls e with BaseOnly => false | _ => true end.

Definition str_exn (e : exn) : string := exn_msg e.

Inductive outcome (A : Type) :=
| Ret (a : A)
| Raise (e : exn).
Arguments Ret {A} a.
Arguments Raise {A} e.

Definition bind {A B} (m : outcome A) (k : A -> outcome B) : outcome B :=
  match m with Ret a => k a | Raise e => Raise e end.

(** Truthiness, as [if x:], [not x] and [x or y] use it. *)
Definition truthy (v : pyval) : bool :=
  match v with
  | PyNone => false
  | PyInt z => negb (Z.eqb z 0)
  | PyFloat q => negb (Qeq_bool q 0%Q)
  | PyStr s => negb (String.eqb s "")
  end.

Definition py_or (a b : pyval) : pyval := if truthy a then a else b.

Definition num (v : pyval) : option Q :=
  match v with
  | PyInt z => Some (inject_Z z)
  | PyFloat q => Some q
  | _ => None
  end.

Definition type_name (v : pyval) : string :=
  match v with
  | PyNone => "NoneType" | PyInt _ => "int"
  | PyFloat _ => "float" | PyStr _ => "str"
  end.

Definition Qlt_bool (a b : Q) : bool := negb (Qle_bool b a).

(** [a > b] *)
Definition py_gt (a b : pyval) : outcome bool :=
  match num a, num b with
  | Some x, Some y => Ret (Qlt_bool y x)
  | _, _ =>
      match a, b with
      | PyStr s, PyStr t => Ret (String.ltb t s)
      | _, _ =>
          Raise (Exn TypeError
            ("'>' not supported between instances of '" +:+ type_name a
             +:+ "' and '" +:+ type_name b +:+ "'"))
      end
  end.

(** [a / b] (true division) *)
Definition py_div (a b : pyval) : outcome pyval :=
  match num a, num b with
  | Some x, Some y =>
      if Qeq_bool y 0%Q then Raise (Exn ZeroDivisionError "division by zero")
      else Ret (PyFloat (x / y)%Q)
  | _, _ =>
      Raise (Exn TypeError
        ("unsupported operand type(s) for /: '" +:+ type_name a
         +:+ "' and '" +:+ type_name b +:+ "'"))
  end.

(** [a * 100] for the float a true division returns. *)
Definition py_mul100 (a : pyval) : pyval :=
  match a with
  | PyFloat q => PyFloat (q * 100)%Q
  | PyInt z => PyInt (z * 100)
  | other => other
  end.

(** [v == s] for a string literal [s]. *)
Definition eq_str (v : pyval) (s : string) : bool :=
  match v with PyStr t => String.eqb t s | _ => false end.

(** A dict with string keys. *)
Abbreviation dict := (gmap string pyval).

(** [d[k]] *)
Definition getitem (d : dict) (k : string) : outcome pyval :=
  match d !! k with
  | Some v => Ret v
  | None => Raise (Exn KeyError ("'" +:+ k +:+ "'"))
  end.

(** [d.get(k)] and [d.get(k, dflt)] *)
Definition get (d : dict) (k : string) : pyval := default PyNone (d !! k).
Definition get_or (d : dict) (k : string) (dflt : pyval) : pyval :=
  default dflt (d !! k).

(** [str(x)] for an optional string, as an f-string renders it. *)
Definition str_opt (o : option string) : string :=
  match o with Some s => s | None => "None" end.

End Py.
Import Py.

(** ** The progress record *)

(** [psutil.Process()] with no argument denotes the serving process
    itself; only its pid is ever read back. *)
Record Process := { pid : Z }.

Record DownloadProgress := {
  progress : pyval;
  speed : pyval;
  eta : pyval;
  status : string;
  process : option Process
}.

(** [DownloadProgress.__init__] *)
Definition init : DownloadProgress :=
  {| progress := PyInt 0;
     speed := PyStr "0 KiB/s";
     eta := PyStr "00:00";
     status := "starting";
     process := None |}.

Definition set_progress v (dp : DownloadProgress) :=
  {| progress := v; speed := speed dp; eta := eta dp;
     status := status dp; process := process dp |}.
Definition set_speed v (dp : DownloadProgress) :=
  {| progress := progress dp; speed := v; eta := eta dp;
     status := status dp; process := process dp |}.
Definition set_eta v (dp : DownloadProgress) :=
  {| progress := progress dp; speed := speed dp; eta := v;
     status := status dp; process := process dp |}.
Definition set_status s (dp : DownloadProgress) :=
  {| progress := progress dp; speed := speed dp; eta := eta dp;
     status := s; process := process dp |}.
Definition set_process p (dp : DownloadProgress) :=
  {| progress := progress dp; speed := speed dp; eta := eta dp;
     status := status dp; process := p |}.

(** ** Responses *)

(** One selectable entry of the [/formats] answer.  The codec is sent
    under the key [vcodec] for a video entry and [codec] for an audio
    entry; [None] is the JSON [null]. *)
Record format_option := {
  formatId : string;
  extension : string;
  quality : string;
  label : string;
  codec : option string;
  type : string
}.

Inductive body :=
| JsonError (error : string) (details : option string)
| JsonStatus (st : string)
| JsonFormats (options : list format_option)
| JsonProgress (p s e : pyval) (st : string)
| JsonSummary (summary : string)
| JsonTranscript (transcript language : string) (isGenerated : bool)
| Attachment (data : list Byte.byte) (download_name mimetype : string).

Record response := { resp_body : body; resp_code : Z }.

(** [jsonify(x)] alone answers 200; [jsonify(x), n] answers [n]. *)
Definition jsonify (b : body) : response := {| resp_body := b; resp_code := 200 |}.
Definition jsonify_code (b : body) (n : Z) : response :=
  {| resp_body := b; resp_code := n |}.

(** A handler runs over the global record.  It ends by returning a value
    ([None] when the function body ends without a [return]) or by letting
    an exception escape. *)
Definition handler := DownloadProgress -> outcome (option response) * DownloadProgress.

(** ** [progress_hook] *)

(** The callback raises only while evaluating an expression that comes
    before its first assignment, so a raise leaves the record as it was. *)
Definition progress_hook (d : dict) (dp : DownloadProgress)
  : outcome unit * DownloadProgress :=
  match getitem d "status" with
  | Raise e => (Raise e, dp)
  | Ret st =>
      if eq_str st "downloading" then
        let total_bytes :=
          py_or (get d "total_bytes") (get_or d "total_bytes_estimate" (PyInt 0)) in
        match py_gt total_bytes (PyInt 0) with
        | Raise e => (Raise e, dp)
        | Ret false => (Ret tt, dp)
        | Ret true =>
            let downloaded := get_or d "downloaded_bytes" (PyInt 0) in
            match py_div downloaded total_bytes with
            | Raise e => (Raise e, dp)
            | Ret r =>
                (Ret tt,
                 set_eta (get_or d "eta" (PyInt 0))
                   (set_speed (get_or d "speed" (PyInt 0))
                      (set_progress (py_mul100 r) dp)))
            end
        end
      else if eq_str st "finished" then
        (Ret tt, set_status "finished" (set_progress (PyInt 100) dp))
      else (Ret tt, dp)
  end.

(** ** [get_progress], [reset_progress], [cancel_download] *)

Definition get_progress : handler := fun dp =>
  (Ret (Some (jsonify (JsonProgress (progress dp) (speed dp) (eta dp) (status dp)))), dp).

Definition reset_progress : handler := fun dp =>
  let dp := set_progress (PyInt 0) dp in
  let dp := set_speed (PyInt 0) dp in
  let dp := set_eta (PyInt 0) dp in
  let dp := set_status "starting" dp in
  (Ret (Some (jsonify (JsonStatus "reset"))), dp).

Section Cancel.

(** The process utilities: looking the recorded pid up, listing its
    descendants and killing each of them, then the process itself.  None
    of these calls touches the progress record, so they are taken as one
    call that returns or raises. *)
Variable kill_tree : Z -> outcome unit.

Definition cancel_download : handler := fun dp =>
  match process dp with
  | Some p =>
      match kill_tree (pid p) with
      | Ret _ =>
          let dp := set_process None dp in
          let dp := set_progress (PyInt 0) dp in
          let dp := set_status "cancelled" dp in
          (Ret (Some (jsonify (JsonStatus "cancelled"))), dp)
      | Raise e =>
          if is_Exception e
          then (Ret (Some (jsonify_code (JsonError (str_exn e) None) 500)), dp)
          else (Raise e, dp)
      end
  | None => (Ret None, dp)
  end.

End Cancel.

(** ** [download_video] *)

(** [s.replace(old, new)]: every non-overlapping occurrence, left to
    right.  [skip] counts the characters of a matched occurrence that are
    still to be dropped. *)
Fixpoint str_replace_go (old new : string) (skip : nat) (s : string) : string :=
  match s with
  | EmptyString => EmptyString
  | String c r =>
      match skip with
      | S k => str_replace_go old new k r
      | O =>
          if String.prefix old s
          then new +:+ str_replace_go old new (Nat.pred (String.length old)) r
          else String c (str_replace_go old new 0 r)
      end
  end.

Definition str_replace (old new s : string) : string := str_replace_go old new 0 s.

Inductive postprocessor :=
| FFmpegExtractAudio (preferredcodec preferredquality : string)
| FFmpegVideoRemuxer (preferedformat : string).

(** The options dict handed to the extractor.  Keys one branch leaves out
    are [None]; [progress_hooks] is [[progress_hook]] in both branches and
    is wired in by [run_hooks] below. *)
Record ydl_opts := {
  opt_format : string;
  opt_outtmpl : string;
  opt_postprocessors : list postprocessor;
  opt_ffmpeg_location : string;
  opt_merge_output_format : option string;
  opt_prefer_ffmpeg : option bool;
  opt_keepvideo : option bool;
  opt_ffmpeg_args : list string;
  opt_quiet : bool;
  opt_verbose : bool
}.

Definition format_map : gmap string string :=
  list_to_map
    [ ("4k", "bestvideo[height<=2160][ext=webm]+bestaudio[ext=webm]/best[height<=2160]");
      ("1440p", "bestvideo[height<=1440][ext=webm]+bestaudio[ext=webm]/best[height<=1440]");
      ("1080p", "bestvideo[height<=1080][ext=webm]+bestaudio[ext=webm]/best[height<=1080]");
      ("720p", "bestvideo[height=720][ext=webm]+bestaudio[ext=webm]/best[height=720]");
      ("480p", "bestvideo[height=480][ext=webm]+bestaudio[ext=webm]/best[height=480]") ].

(** [quality.startswith('audio_')] *)
Definition is_audio (quality : string) : bool := String.prefix "audio_" quality.

(** Lines 87-131: the options for a (non-[None]) format selector. *)
Definition build_opts (FFMPEG_PATH output_template quality : string) : ydl_opts :=
  if is_audio quality then
    {| opt_format := str_replace "audio_" "" quality;
       opt_outtmpl := output_template;
       opt_postprocessors := [FFmpegExtractAudio "mp3" "192"];
       opt_ffmpeg_location := FFMPEG_PATH;
       opt_merge_output_format := None;
       opt_prefer_ffmpeg := None;
       opt_keepvideo := Some false;
       opt_ffmpeg_args := [];
       opt_quiet := false;
       opt_verbose := true |}
  else
    {| opt_format := default (format_map !!! "1080p") (format_map !! quality);
       opt_outtmpl := output_template;
       opt_postprocessors := [FFmpegVideoRemuxer "mkv"];
       opt_ffmpeg_location := FFMPEG_PATH;
       opt_merge_output_format := Some "mkv";
       opt_prefer_ffmpeg := Some true;
       opt_keepvideo := None;
       opt_ffmpeg_args := ["-c"; "copy"; "-strict"; "experimental"];
       opt_quiet := false;
       opt_verbose := true |}.

(** The extractor calls the registered callback once per progress event,
    on the request's own thread; a callback that raises ends the run with
    that exception. *)
Fixpoint run_hooks (events : list dict) (dp : DownloadProgress)
  : outcome unit * DownloadProgress :=
  match events with
  | [] => (Ret tt, dp)
  | d :: rest =>
      match progress_hook d dp with
      | (Ret _, dp') => run_hooks rest dp'
      | (Raise e, dp') => (Raise e, dp')
      end
  end.

Section Download.

(** Collaborators: the temporary directory, path functions, the file
    system and the extractor.  [extract_info] yields the progress events
    it reports and then the info dict, or raises. *)
Variable FFMPEG_PATH : string.
Variable server_process : Process.
Variable mkdtemp : outcome string.
Variable path_join : string -> string -> string.
Variable splitext_root : string -> string.
Variable basename : string -> string.
Variable path_exists : string -> bool.
Variable read_file : string -> outcome (list Byte.byte).
Variable info : Type.
Variable YoutubeDL : ydl_opts -> outcome unit.
Variable extract_info : ydl_opts -> string -> list dict * outcome info.
Variable prepare_filename : ydl_opts -> info -> outcome string.

(** The body of the inner [try] after the process handle is recorded:
    lines 136-167.  Removing the file after it is read swallows its own
    errors and changes nothing that is observed here. *)
Definition download_body (audio : bool) (opts : ydl_opts) (url : string)
    (dp : DownloadProgress) : outcome response * DownloadProgress :=
  let '(events, result) := extract_info opts url in
  match run_hooks events dp with
  | (Raise e, dp) => (Raise e, dp)
  | (Ret _, dp) =>
      (match result with
       | Raise e => Raise e
       | Ret i =>
           match prepare_filename opts i with
           | Raise e => Raise e
           | Ret prepared =>
               let filename :=
                 if audio then splitext_root prepared +:+ ".mp3" else prepared in
               if negb (path_exists filename)
               then Raise (Exn OtherException
                             ("Downloaded file not found: " +:+ filename))
               else
                 match read_file filename with
                 | Raise e => Raise e
                 | Ret file_data =>
                     let mimetype := if audio then "audio/mp3" else "video/mp4" in
                     Ret {| resp_body :=
                              Attachment file_data (basename filename) mimetype;
                            resp_code := 200 |}
                 end
           end
       end, dp)
  end.

(** The outer [except Exception] clause: lines 175-181. *)
Definition download_except (e : exn) (dp : DownloadProgress)
  : outcome (option response) * DownloadProgress :=
  if is_Exception e then
    (Ret (Some (jsonify_code
                  (JsonError (str_exn e)
                     (Some "Check server logs for more information")) 500)),
     set_process None dp)
  else (Raise e, dp).

Definition download_video (video_id quality : option string) : handler := fun dp =>
  let url := "https://www.youtube.com/watch?v=" +:+ str_opt video_id in
  match mkdtemp with
  | Raise e => download_except e dp
  | Ret temp_dir =>
      let output_template := path_join temp_dir "%(title)s.%(ext)s" in
      match quality with
      | None =>
          download_except
            (Exn AttributeError "'NoneType' object has no attribute 'startswith'") dp
      | Some q =>
          let opts := build_opts FFMPEG_PATH output_template q in
          match YoutubeDL opts with
          | Raise e => download_except e dp
          | Ret _ =>
              let dp := set_process (Some server_process) dp in
              let '(r, dp) := download_body (is_audio q) opts url dp in
              (* finally: *)
              let dp := set_process None dp in
              match r with
              | Ret resp => (Ret (Some resp), dp)
              | Raise e => download_except e dp
              end
          end
      end
  end.

End Download.

(** ** [get_formats] *)

(** A key of a collaborator dict: missing, present with [None], or
    present with a value. *)
Inductive field (A : Type) :=
| Absent
| Null
| Val (a : A).
Arguments Absent {A}.
Arguments Null {A}.
Arguments Val {A} a.

(** [f.get(k)] and [f.get(k, dflt)]; [None] is Python's [None]. *)
Definition fget {A} (x : field A) : option A :=
  match x with Val a => Some a | _ => None end.
Definition fget_or {A} (x : field A) (dflt : A) : option A :=
  match x with Absent => Some dflt | Null => None | Val a => Some a end.

(** The keys of an extractor format dict that the handler reads, typed as
    the extractor documents them. *)
Record format := {
  format_id : field string;
  ext : field string;
  vcodec : field string;
  acodec : field string;
  height : field Z;
  filesize : field Z;
  abr : field Q;
  protocol : field string
}.

(** The value stored per height in [format_info]. *)
Record video_info := {
  vi_format_id : option string;
  vi_ext : option string;
  vi_vcodec : option string;
  vi_filesize : option Z
}.

(** An element of [audio_formats]. *)
Record audio_info := {
  au_format_id : option string;
  au_ext : option string;
  au_filesize : option Z;
  au_abr : Q;
  au_acodec : option string
}.

(** [needle in hay] on strings. *)
Fixpoint str_contains (needle hay : string) : bool :=
  String.prefix needle hay ||
  match hay with
  | EmptyString => false
  | String _ rest => str_contains needle rest
  end.

(** [f.get('vcodec', 'none') != 'none' and f.get('acodec', 'none') == 'none'] *)
Definition is_video_only (f : format) : bool :=
  negb (bool_decide (fget_or (vcodec f) "none" = Some "none"))
  && bool_decide (fget_or (acodec f) "none" = Some "none").

(** [f.get('vcodec', 'none') == 'none' and f.get('acodec', 'none') != 'none'] *)
Definition is_audio_only (f : format) : bool :=
  bool_decide (fget_or (vcodec f) "none" = Some "none")
  && negb (bool_decide (fget_or (acodec f) "none" = Some "none")).

(** [a > b] on two integers that may be [None]. *)
Definition gt_opt (a b : option Z) : outcome bool :=
  match a, b with
  | Some x, Some y => Ret (y <? x)
  | _, _ =>
      Raise (Exn TypeError
        ("'>' not supported between instances of '"
         +:+ (if is_Some_dec a then "int" else "NoneType") +:+ "' and '"
         +:+ (if is_Some_dec b then "int" else "NoneType") +:+ "'"))
  end.

Definition info_of (f : format) : video_info :=
  {| vi_format_id := fget (format_id f);
     vi_ext := fget (ext f);
     vi_vcodec := fget (vcodec f);
     vi_filesize := fget_or (filesize f) 0 |}.

Definition audio_of (f : format) (q : Q) : audio_info :=
  {| au_format_id := fget (format_id f);
     au_ext := fget (ext f);
     au_filesize := fget_or (filesize f) 0;
     au_abr := q;
     au_acodec := fget_or (acodec f) "unknown" |}.

(** One round of the loop of lines 210-233 over
    [(format_info, audio_formats)]. *)
Definition collect_step (st : gmap Z video_info * list audio_info) (f : format)
  : outcome (gmap Z video_info * list audio_info) :=
  let '(format_info, audio_formats) := st in
  if is_video_only f then
    match fget_or (height f) 0 with
    | None => Raise (Exn TypeError
                "'>' not supported between instances of 'NoneType' and 'int'")
    | Some h =>
        if 0 <? h then
          match format_info !! h with
          | None => Ret (<[h := info_of f]> format_info, audio_formats)
          | Some kept =>
              bind (gt_opt (fget_or (filesize f) 0) (vi_filesize kept))
                (fun larger =>
                   if (larger : bool)
                   then Ret (<[h := info_of f]> format_info, audio_formats)
                   else Ret st)
          end
        else Ret st
    end
  else if is_audio_only f then
    match fget (abr f) with
    | Some q =>
        if Qeq_bool q 0%Q then Ret st
        else
          match fget_or (protocol f) "" with
          | None => Raise (Exn TypeError
                      "argument of type 'NoneType' is not iterable")
          | Some proto =>
              if str_contains "dash" proto || str_contains "http_dash_segments" proto
              then Ret st
              else Ret (format_info, audio_formats ++ [audio_of f q])
          end
    | None => Ret st
    end
  else Ret st.

Fixpoint collect (formats : list format) (st : gmap Z video_info * list audio_info)
  : outcome (gmap Z video_info * list audio_info) :=
  match formats with
  | [] => Ret st
  | f :: rest => bind (collect_step st f) (collect rest)
  end.

(** [sorted(xs, key=..., reverse=True)] and [xs.sort(key=..., reverse=True)]:
    a stable descending sort; [geb x y] is [key(x) >= key(y)].  An element
    is put in front of the first one whose key does not exceed its own, so
    equal keys keep their order. *)
Section SortDesc.
Context {A : Type} (geb : A -> A -> bool).

Fixpoint insert_desc (x : A) (l : list A) : list A :=
  match l with
  | [] => [x]
  | y :: l' => if geb x y then x :: l else y :: insert_desc x l'
  end.

Fixpoint sort_desc (l : list A) : list A :=
  match l with
  | [] => []
  | x :: l' => insert_desc x (sort_desc l')
  end.
End SortDesc.

Definition resolution_map : gmap Z (string * string) :=
  list_to_map
    [ (2160, ("4k", "4K (2160p)"));
      (1440, ("1440p", "QHD (1440p)"));
      (1080, ("1080p", "Full HD (1080p)"));
      (720, ("720p", "HD (720p)"));
      (480, ("480p", "SD (480p)")) ].

(** Lines 247-256. *)
Definition video_option (h : Z) (idl : string * string) (kept : video_info)
  : format_option :=
  {| formatId := fst idl;
     extension := "mp4";
     quality := pretty h +:+ "p";
     label := snd idl;
     codec := vi_vcodec kept;
     type := "video" |}.

(** The body of the loop for one height: an entry when the height is a
    key of [resolution_map]. *)
Definition video_option_at (format_info : gmap Z video_info) (h : Z)
  : option format_option :=
  match resolution_map !! h, format_info !! h with
  | Some idl, Some kept => Some (video_option h idl kept)
  | _, _ => None
  end.

Definition video_options (format_info : gmap Z video_info) : list format_option :=
  omap (video_option_at format_info)
       (sort_desc Z.geb (map_to_list format_info).*1).

(** [int(x)] on a float: truncation towards zero. *)
Definition py_int (q : Q) : Z := Z.quot (Qnum q) (Zpos (Qden q)).

Definition audio_option (audio : audio_info) (quality_label : string) : format_option :=
  {| formatId := "audio_" +:+ str_opt (au_format_id audio);
     extension := "mp3";
     quality := pretty (py_int (au_abr audio)) +:+ "kbps";
     label := "Audio - " +:+ quality_label +:+ " ("
              +:+ pretty (py_int (au_abr audio)) +:+ "kbps)";
     codec := au_acodec audio;
     type := "audio" |}.

(** One round of the loop of lines 270-293 over
    [(added_qualities, format_options)]. *)
Definition audio_step (st : gset string * list format_option) (audio : audio_info)
  : gset string * list format_option :=
  let '(added_qualities, format_options) := st in
  let abr := au_abr audio in
  let pick :=
    if Qle_bool 256 abr && negb (bool_decide ("high" ∈ added_qualities))
    then Some ("High Quality", "high")
    else if Qle_bool 128 abr && negb (bool_decide ("medium" ∈ added_qualities))
    then Some ("Medium Quality", "medium")
    else if negb (bool_decide ("low" ∈ added_qualities))
    then Some ("Low Quality", "low")
    else None in
  match pick with
  | None => st
  | Some (quality_label, quality_key) =>
      ({[quality_key]} ∪ added_qualities,
       format_options ++ [audio_option audio quality_label])
  end.

Definition abr_geb (x y : audio_info) : bool := Qle_bool (au_abr y) (au_abr x).

Definition audio_options (audio_formats : list audio_info) (format_options : list format_option)
  : list format_option :=
  snd (fold_left audio_step (sort_desc abr_geb audio_formats) (∅, format_options)).

(** The handler.  [extracted] is what [ydl.extract_info(url, download=False)]
    gave: the [formats] key of the info dict, or the exception raised.
    The handler does not touch the progress record. *)
Definition get_formats (video_id : option string)
    (extracted : outcome (field (list format))) : outcome response :=
  let except e :=
    if is_Exception e then Ret (jsonify_code (JsonError (str_exn e) None) 400)
    else Raise e in
  match video_id with
  | None | Some "" => Ret (jsonify_code (JsonError "No video ID provided" None) 400)
  | Some _ =>
      match extracted with
      | Raise e => except e
      | Ret Null => except (Exn TypeError "'NoneType' object is not iterable")
      | Ret fmts =>
          let formats := default [] (fget_or fmts []) in
          match collect formats (∅, []) with
          | Raise e => except e
          | Ret (format_info, audio_formats) =>
              Ret (jsonify
                     (JsonFormats (audio_options audio_formats (video_options format_info))))
          end
      end
  end.

(** ** [get_transcript] *)

(** An element of the fetched transcript data. *)
Record entry := { start : Q; text : string }.

(** The transcript objects of the transcript service: attributes, and the
    two methods the handler calls. *)
#[warnings="-register-all"] Inductive Transcript := {
  language : string;
  language_code : string;
  is_generated : bool;
  fetch : outcome (list entry);
  translate : string -> outcome Transcript
}.

Record TranscriptList := {
  find_transcript : list string -> outcome Transcript;
  find_generated_transcript : list string -> outcome Transcript
}.

Definition newline : string := String (Ascii.ascii_of_N 10) EmptyString.

(** [f"{n:02d}"] *)
Definition fmt_02d (n : Z) : string :=
  if (0 <=? n) && (n <? 10) then "0" +:+ pretty n else pretty n.

(** Lines 429-433. *)
Definition format_entry (e : entry) : string :=
  let time := py_int (start e) in
  let minutes := time `div` 60 in
  let seconds := time `mod` 60 in
  let timestamp := "[" +:+ fmt_02d minutes +:+ ":" +:+ fmt_02d seconds +:+ "] " in
  timestamp +:+ text e.

(** ['\n'.join(xs)] *)
Fixpoint join_lines (xs : list string) : string :=
  match xs with
  | [] => ""
  | [x] => x
  | x :: rest => x +:+ newline +:+ join_lines rest
  end.

(** Lines 410-421: the nested [try]/[except:] chain.  A bare [except:]
    catches every exception. *)
Definition choose_transcript (transcript_list : TranscriptList) (lang : string)
  : outcome Transcript :=
  match find_transcript transcript_list [lang] with
  | Ret transcript => Ret transcript
  | Raise _ =>
      match find_generated_transcript transcript_list [lang] with
      | Ret transcript => Ret transcript
      | Raise _ =>
          bind (find_generated_transcript transcript_list ["hi"])
            (fun transcript =>
               if negb (String.eqb lang "hi")
               then translate transcript lang
               else Ret transcript)
      end
  end.

(** The handler.  [language_arg] is the query argument, [None] when it is
    not given; [listed] is what [YouTubeTranscriptApi.list_transcripts(video_id)]
    gave.  The handler does not touch the progress record. *)
Definition get_transcript (video_id language_arg : option string)
    (listed : outcome TranscriptList) : outcome response :=
  let except e :=
    if is_Exception e then Ret (jsonify_code (JsonError (str_exn e) None) 400)
    else Raise e in
  let lang := default "en" language_arg in
  match video_id with
  | None | Some "" => Ret (jsonify_code (JsonError "No video ID provided" None) 400)
  | Some _ =>
      match listed with
      | Raise e => except e
      | Ret transcript_list =>
          match choose_transcript transcript_list lang with
          | Raise e => except e
          | Ret transcript =>
              match fetch transcript with
              | Raise e => except e
              | Ret transcript_data =>
                  let formatted_transcript := format_entry <$> transcript_data in
                  Ret (jsonify (JsonTranscript (join_lines formatted_transcript)
                                  (language transcript) (is_generated transcript)))
              end
          end
      end
  end.

(** ** [summarize_text] *)

(** [s.lower()].  Strings are byte strings here and only the ASCII letters
    are mapped; the lower-casing of a character outside ASCII never yields
    an ASCII capital either. *)
Definition ascii_lower (c : Ascii.ascii) : Ascii.ascii :=
  let n := Ascii.N_of_ascii c in
  if ((65 <=? n) && (n <=? 90))%N then Ascii.ascii_of_N (n + 32) else c.

Fixpoint str_lower (s : string) : string :=
  match s with
  | EmptyString => EmptyString
  | String c rest => String (ascii_lower c) (str_lower rest)
  end.

(** The parsed request body: a JSON object, or any other JSON value (on
    which [.get] does not exist). *)
Inductive json_body :=
| JsonObject (members : dict)
| JsonOther.

(** What the summarization model answers. *)
Record gen_response := {
  block_reason : Z;                 (* prompt_feedback.block_reason, 0 when unset *)
  response_text : outcome string    (* the [text] property *)
}.

Definition prompt : string :=
  newline +:+
  "        Please provide a concise summary of this video transcript. Focus on:" +:+ newline +:+
  "        - Main topics and key points" +:+ newline +:+
  "        - Important details and conclusions" +:+ newline +:+
  "        - Keep the summary clear and well-structured" +:+ newline +:+
  "        " +:+ newline +:+
  "        Transcript:" +:+ newline +:+
  "        ".

Section Summarize.

(** Collaborators: [genai.configure] with [genai.GenerativeModel], the
    model's [generate_content] on the prompt followed by a newline and
    the text, and how a block reason prints. *)
Variable model : Type.
Variable GenerativeModel : string -> string -> outcome model.
Variable generate_content : model -> string -> pyval -> outcome gen_response.
Variable str_block_reason : Z -> string.

Definition get_gemini_model (api_key : option string) : outcome model :=
  match api_key with
  | None | Some "" => Raise (Exn ValueError "No API key provided")
  | Some k => GenerativeModel k "gemini-pro"
  end.

(** Lines 468-477: the body of the inner [try]. *)
Definition summarize_try (api_key : option string) (text : pyval) : outcome response :=
  bind (get_gemini_model api_key) (fun m =>
  bind (generate_content m prompt text) (fun response =>
  if negb (block_reason response =? 0)
  then Raise (Exn OtherException
                ("Content blocked: " +:+ str_block_reason (block_reason response)))
  else bind (response_text response) (fun summary =>
       Ret (jsonify (JsonSummary summary))))).

(** The handler.  [data] is what [request.json] gave, [api_key] the
    [X-Gemini-Key] header. *)
Definition summarize_text (data : outcome json_body) (api_key : option string)
  : outcome response :=
  let except e :=
    if is_Exception e then Ret (jsonify_code (JsonError (str_exn e) None) 400)
    else Raise e in
  match data with
  | Raise e => except e
  | Ret JsonOther =>
      except (Exn AttributeError "object has no attribute 'get'")
  | Ret (JsonObject members) =>
      let text := get_or members "text" (PyStr "") in
      if negb (truthy text)
      then Ret (jsonify_code (JsonError "No text provided" None) 400)
      else if negb (truthy (default PyNone (PyStr <$> api_key)))
      then Ret (jsonify_code (JsonError "No API key provided" None) 401)
      else
        match summarize_try api_key text with
        | Ret r => Ret r
        | Raise gemini_error =>
            if is_Exception gemini_error then
              let error_msg := str_exn gemini_error in
              if str_contains "API key not valid" (str_lower error_msg)
              then Ret (jsonify_code
                          (JsonError
                             "Invalid API key. Please check your API key and try again."
                             (Some error_msg)) 401)
              else Ret (jsonify_code
                          (JsonError
                             "Failed to generate summary. Please try again later."
                             (Some error_msg)) 500)
            else Raise gemini_error
        end
  end.

End Summarize.

(** ** Reachable progress records *)

(** Every write any operation makes to the record, as an atomic step: a
    call of the progress callback, a [/cancel], a [/reset-progress], a
    [/progress], and the two writes [/download] makes to the process
    field.  A download is any interleaving of the latter with callback
    steps, on its own or among other requests. *)
Inductive step : DownloadProgress -> DownloadProgress -> Prop :=
| step_hook d dp : step dp (snd (progress_hook d dp))
| step_cancel kill_tree dp : step dp (snd (cancel_download kill_tree dp))
| step_reset dp : step dp (snd (reset_progress dp))
| step_poll dp : step dp (snd (get_progress dp))
| step_process p dp : step dp (set_process p dp).

Inductive reachable : DownloadProgress -> Prop :=
| reach_init : reachable init
| reach_step dp dp' : reachable dp -> step dp dp' -> reachable dp'.

Definition status_written (s : string) : Prop :=
  s = "starting" \/ s = "finished" \/ s = "cancelled".

(** ** Reading the [/formats] answer *)

(** [a <= b] on file sizes that may be [None]; a [None] is only ever
    compared with itself. *)
Definition size_le (a b : option Z) : Prop :=
  match a, b with
  | Some x, Some y => x <= y
  | None, None => True
  | _, _ => False
  end.

(** The threshold bucket of a bitrate: high from 256, medium from 128, low
    below. *)
Definition bucket (kbps : Q) : string :=
  if Qle_bool 256 kbps then "high"
  else if Qle_bool 128 kbps then "medium"
  else "low".

(** The entry [o] stands for the height [h]: it carries the id and label
    [resolution_map] gives [h], and the codec of the format kept for [h]. *)
Definition video_entry_of (format_info : gmap Z video_info)
    (o : format_option) (h : Z) : Prop :=
  exists idl kept,
    resolution_map !! h = Some idl
    /\ format_info !! h = Some kept
    /\ o = video_option h idl kept.

(** [kept] is what the loop stores for a video-only format of height [h]
    among [formats], one whose file size none of the others of that height
    exceeds. *)
Definition largest_at (formats : list format) (h : Z) (kept : video_info) : Prop :=
  exists f,
    f ∈ formats /\ is_video_only f = true /\ height f = Val h
    /\ kept = info_of f
    /\ forall f', f' ∈ formats -> is_video_only f' = true -> height f' = Val h ->
         size_le (fget_or (filesize f') 0) (vi_filesize kept).

(** What the first loop maintains between [format_info] and the formats
    it has gone through: every key is a positive height and stores the
    largest format of that height, and every positive height seen on a
    video-only format is a key. *)
Definition collected (seen : list format) (format_info : gmap Z video_info) : Prop :=
  (forall h kept, format_info !! h = Some kept -> 0 < h /\ largest_at seen h kept)
  /\ (forall f h, f ∈ seen -> is_video_only f = true -> height f = Val h -> 0 < h ->
        is_Some (format_info !! h)).

(** The three quality keys the audio loop can add. *)
Definition levels : gset string := {[ "high"; "medium"; "low" ]}.

(** ** Sample collaborators

    Concrete collaborators on which the statements below are exercised. *)

Module Sample.

Definition server_process : Process := {| pid := 4242 |}.

Definition path_join (a b : string) : string := a +:+ "/" +:+ b.

(** The prepared file name of the sample run is ["/tmp/dl/clip.webm"]. *)
Definition splitext_root (_ : string) : string := "/tmp/dl/clip".
Definition basename (p : string) : string :=
  if String.prefix "/tmp/dl/" p then String.substring 8 (String.length p - 8) p else p.

Definition events : list dict :=
  [ {[ "status" := PyStr "downloading";
       "total_bytes" := PyInt 2000;
       "downloaded_bytes" := PyInt 500;
       "speed" := PyFloat (1024 # 1);
       "eta" := PyInt 3 ]};
    {[ "status" := PyStr "finished" ]} ].

Definition file_data : list Byte.byte := [Byte.x49; Byte.x44; Byte.x33].

(** An extractor run that succeeds and leaves [clip.mp3] behind. *)
Definition extract_ok (_ : ydl_opts) (_ : string) : list dict * outcome unit :=
  (events, Ret tt).

(** An extractor run that fails after one progress event. *)
Definition extract_fails (_ : ydl_opts) (_ : string) : list dict * outcome unit :=
  (take 1 events, Raise (Exn OtherException "ERROR: Video unavailable")).

Definition download (extract : ydl_opts -> string -> list dict * outcome unit)
    (video_id quality : option string) : handler :=
  download_video "bin/ffmpeg.exe" server_process (Ret "/tmp/dl") path_join
    splitext_root basename (fun _ => true) (fun _ => Ret file_data)
    unit (fun _ => Ret tt) extract (fun _ _ => Ret "/tmp/dl/clip.webm")
    video_id quality.


(** A video whose only transcript is the auto-generated Hindi one, which
    the service can translate to French. *)
Definition not_found : exn := Exn OtherException "No transcripts were found".

Definition french : Transcript :=
  {| language := "French";
     language_code := "fr";
     is_generated := true;
     fetch := Ret [ {| start := 0 # 1; text := "Bonjour" |};
                    {| start := 131 # 2; text := "Au revoir" |} ];
     translate := fun _ => Raise (Exn OtherException "not translatable") |}.

Definition hindi_auto : Transcript :=
  {| language := "Hindi (auto-generated)";
     language_code := "hi";
     is_generated := true;
     fetch := Ret [ {| start := 0 # 1; text := "Namaste" |} ];
     translate := fun code =>
       if String.eqb code "fr" then Ret french
       else Raise (Exn OtherException "translation language not available") |}.

Definition only_hindi : TranscriptList :=
  {| find_transcript := fun codes =>
       if bool_decide (codes = ["hi"]) then Ret hindi_auto else Raise not_found;
     find_generated_transcript := fun codes =>
       if bool_decide (codes = ["hi"]) then Ret hindi_auto else Raise not_found |}.

(** A summarization model that rejects the caller's key. *)
Definition key_rejected : string :=
  "400 API key not valid. Please pass a valid API key.".

Definition summarize (msg : string) (data : outcome json_body) (api_key : option string)
  : outcome response :=
  summarize_text unit (fun _ _ => Ret tt)
    (fun _ _ _ => Raise (Exn OtherException msg)) (fun _ => "SAFETY")
    data api_key.


(** Extractor formats: audio-only and video-only streams. *)
Definition audio (id : string) (kbps : Q) : format :=
  {| format_id := Val id; ext := Val "webm";
     vcodec := Val "none"; acodec := Val "opus";
     height := Null; filesize := Null;
     abr := Val kbps; protocol := Val "https" |}.

Definition video (id : string) (h size : Z) : format :=
  {| format_id := Val id; ext := Val "mp4";
     vcodec := Val ("avc1." +:+ id); acodec := Val "none";
     height := Val h; filesize := Val size;
     abr := Absent; protocol := Val "https" |}.

(** Two 1080p streams, one 4K stream, one 360p stream and one audio
    stream, and the answer the handler gives for them. *)
Definition formats : list format :=
  [ video "137" 1080 900; video "299" 1080 1500; video "313" 2160 4000;
    video "18" 360 50; audio "251" (160 # 1) ].

Definition options : list format_option :=
  [ {| formatId := "4k"; extension := "mp4"; quality := "2160p";
       label := "4K (2160p)"; codec := Some "avc1.313"; type := "video" |};
    {| formatId := "1080p"; extension := "mp4"; quality := "1080p";
       label := "Full HD (1080p)"; codec := Some "avc1.299"; type := "video" |};
    {| formatId := "audio_251"; extension := "mp3"; quality := "160kbps";
       label := "Audio - Medium Quality (160kbps)"; codec := Some "opus";
       type := "audio" |} ].

(** Two audio streams of 320 and 300 kbps. *)
Definition two_high : list format :=
  [ audio "251" (320 # 1); audio "140" (300 # 1) ].

End Sample.

(** ** [get_playlist_info], [get_transcript_languages], [check_transcript] *)

(** The bodies of the three listing handlers, and their answers. *)
Record playlist_video := {
  pv_id : pyval;
  pv_title : pyval;
  pv_duration : pyval
}.

Record language_item := {
  li_code : string;
  li_name : string;
  li_isGenerated : bool
}.

Inductive listing_body :=
| JsonPlaylist (title : option string) (videos : list playlist_video)
| JsonLanguages (languages : list language_item)
| JsonHasTranscript (hasTranscript : bool) (error : option string)
| JsonListingError (error : string).

Record reply := { reply_body : listing_body; reply_code : Z }.

(** The keys of the flat playlist info dict that the handler reads. *)
Record playlist_info := {
  pl_title : field string;
  pl_entries : field (list dict)
}.

(** The dict built for one entry: [entry['id']], [entry['title']] and
    [entry.get('duration', 0)], evaluated in this order. *)
Definition playlist_video_of (entry : dict) : outcome playlist_video :=
  bind (getitem entry "id") (fun i =>
  bind (getitem entry "title") (fun t =>
  Ret {| pv_id := i; pv_title := t;
         pv_duration := get_or entry "duration" (PyInt 0) |})).

(** The list comprehension of lines 343-347: the first entry that raises
    ends it. *)
Fixpoint playlist_videos (entries : list dict) : outcome (list playlist_video) :=
  match entries with
  | [] => Ret []
  | entry :: rest =>
      bind (playlist_video_of entry) (fun v =>
      bind (playlist_videos rest) (fun vs => Ret (v :: vs)))
  end.

(** The handler.  [extracted] is what the flat extraction of the playlist
    url gave. *)
Definition get_playlist_info (playlist_id : option string)
    (extracted : outcome playlist_info) : outcome reply :=
  let except e :=
    if is_Exception e
    then Ret {| reply_body := JsonListingError (str_exn e); reply_code := 400 |}
    else Raise e in
  match playlist_id with
  | None | Some "" =>
      Ret {| reply_body := JsonListingError "No playlist ID provided";
             reply_code := 400 |}
  | Some _ =>
      match extracted with
      | Raise e => except e
      | Ret info =>
          match pl_entries info with
          | Absent => except (Exn KeyError "'entries'")
          | Null => except (Exn TypeError "'NoneType' object is not iterable")
          | Val entries =>
              match playlist_videos entries with
              | Raise e => except e
              | Ret videos =>
                  Ret {| reply_body :=
                           JsonPlaylist (fget_or (pl_title info) "Playlist") videos;
                         reply_code := 200 |}
              end
          end
      end
  end.

(** The handler.  [listed] is what iterating
    [YouTubeTranscriptApi.list_transcripts(video_id)] gave; the video id is
    handed to the service unchecked. *)
Definition get_transcript_languages (listed : outcome (list Transcript))
  : outcome reply :=
  match listed with
  | Raise e =>
      if is_Exception e
      then Ret {| reply_body := JsonListingError (str_exn e); reply_code := 400 |}
      else Raise e
  | Ret transcript_list =>
      let languages :=
        (fun transcript =>
           {| li_code := language_code transcript;
              li_name := language transcript;
              li_isGenerated := is_generated transcript |}) <$> transcript_list in
      Ret {| reply_body := JsonLanguages languages; reply_code := 200 |}
  end.

(** The handler.  [listed] is what
    [YouTubeTranscriptApi.list_transcripts(video_id)] gave; only whether
    it raised is looked at. *)
Definition check_transcript {L : Type} (video_id : option string)
    (listed : outcome L) : outcome reply :=
  match video_id with
  | None | Some "" =>
      Ret {| reply_body := JsonHasTranscript false (Some "No video ID provided");
             reply_code := 200 |}
  | Some _ =>
      match listed with
      | Ret _ => Ret {| reply_body := JsonHasTranscript true None; reply_code := 200 |}
      | Raise e =>
          if is_Exception e
          then Ret {| reply_body := JsonHasTranscript false (Some (str_exn e));
                      reply_code := 200 |}
          else Raise e
      end
  end.

(** ** Reading requests and answers *)

(** [not x] on a query argument or header. *)
Definition missing (x : option string) : Prop := x = None \/ x = Some "".

(** The format is one the first loop of [get_formats] stores as audio,
    with the bitrate [q]: audio only, with a bitrate that is not zero and
    a protocol that contains neither [dash] nor [http_dash_segments]. *)
Definition downloadable_audio (f : format) (q : Q) : Prop :=
  is_video_only f = false /\ is_audio_only f = true
  /\ fget (abr f) = Some q /\ Qeq_bool q 0 = false
  /\ exists proto,
       fget_or (protocol f) "" = Some proto
       /\ str_contains "dash" proto || str_contains "http_dash_segments" proto = false.

(** The entry [o] is the one the second loop builds for the stored audio
    format [a]: under the label High its bitrate is at least 256, under
    Medium at least 128. *)
Definition audio_entry_of (a : audio_info) (o : format_option) : Prop :=
  exists quality_label,
    o = audio_option a quality_label
    /\ (quality_label = "High Quality" /\ Qle_bool 256 (au_abr a) = true
        \/ quality_label = "Medium Quality" /\ Qle_bool 128 (au_abr a) = true
        \/ quality_label = "Low Quality").

(** [a] is what the first loop stores for some downloadable audio format
    of [formats]. *)
Definition stored_audio (formats : list format) (a : audio_info) : Prop :=
  exists f, f ∈ formats /\ downloadable_audio f (au_abr a) /\ a = audio_of f (au_abr a).

(** Records that differ from what some callbacks make of [dp] in the
    process field only. *)
Definition by_callbacks (dp final : DownloadProgress) : Prop :=
  exists events, final = set_process (process final) (snd (run_hooks events dp)).

(** ** More sample collaborators *)

Module Example.

(** A progress event that reports no total size. *)
Definition no_total : dict :=
  {[ "status" := PyStr "downloading"; "downloaded_bytes" := PyInt 500 ]}.

(** A progress event whose size estimate is there but [None]. *)
Definition none_estimate : dict :=
  {[ "status" := PyStr "downloading"; "downloaded_bytes" := PyInt 500;
     "total_bytes_estimate" := PyNone ]}.

(** A record in the middle of a download. *)
Definition busy : DownloadProgress :=
  {| progress := PyFloat (25 # 1); speed := PyFloat (1024 # 1); eta := PyInt 3;
     status := "starting"; process := Some Sample.server_process |}.

Definition kill_ok (_ : Z) : outcome unit := Ret tt.

(** A download whose extractor succeeds but leaves no file behind. *)
Definition download_no_file (video_id quality : option string) : handler :=
  download_video "bin/ffmpeg.exe" Sample.server_process (Ret "/tmp/dl")
    Sample.path_join Sample.splitext_root Sample.basename (fun _ => false)
    (fun _ => Ret Sample.file_data) unit (fun _ => Ret tt) Sample.extract_ok
    (fun _ _ => Ret "/tmp/dl/clip.webm") video_id quality.





(** A transcript service that finds nothing and says which language it
    looked for. *)
Definition nothing : TranscriptList :=
  {| find_transcript := fun codes =>
       Raise (Exn OtherException ("No transcript found for " +:+ default "" (head codes)));
     find_generated_transcript := fun codes =>
       Raise (Exn OtherException
                ("No generated transcript found for " +:+ default "" (head codes))) |}.

(** A flat playlist of two videos, the second without a duration, and one
    whose second entry has no title. *)
Definition playlist : playlist_info :=
  {| pl_title := Val "Mix";
     pl_entries :=
       Val [ {[ "id" := PyStr "v1"; "title" := PyStr "First"; "duration" := PyInt 61 ]};
             {[ "id" := PyStr "v2"; "title" := PyStr "Second" ]} ] |}.

Definition untitled : dict := {[ "id" := PyStr "v2" ]}.

Definition broken_playlist : playlist_info :=
  {| pl_title := Absent;
     pl_entries :=
       Val [ {[ "id" := PyStr "v1"; "title" := PyStr "First" ]}; untitled ] |}.

(** A summarization model that blocks the prompt. *)
Definition blocked : gen_response :=
  {| block_reason := 1; response_text := Raise (Exn ValueError "no candidates") |}.

Definition summarize_blocked (data : outcome json_body) (api_key : option string)
  : outcome response :=
  summarize_text unit (fun _ _ => Ret tt) (fun _ _ _ => Ret blocked)
    (fun _ => "SAFETY") data api_key.

End Example.

(** * Properties *)

(** ** The progress callback *)

Lemma progress_hook_status d dp :
  status (snd (progress_hook d dp)) = status dp
  \/ status (snd (progress_hook d dp)) = "finished".
Proof.
  unfold progress_hook.
  destruct (getitem d "status") as [st|e]; [|by left].
  destruct (eq_str st "downloading").
  - destruct (py_gt _ _) as [[|]|e]; [|by left|by left].
    destruct (py_div _ _) as [r|e]; by left.
  - destruct (eq_str st "finished"); [by right|by left].
Qed.

Lemma progress_hook_process d dp :
  process (snd (progress_hook d dp)) = process dp.
Proof.
  unfold progress_hook.
  destruct (getitem d "status") as [st|e]; [|done].
  destruct (eq_str st "downloading").
  - destruct (py_gt _ _) as [[|]|e]; [|done|done].
    by destruct (py_div _ _) as [r|e].
  - by destruct (eq_str st "finished").
Qed.

Lemma run_hooks_process events : forall dp,
  process (snd (run_hooks events dp)) = process dp.
Proof.
  induction events as [|d rest IH]; intros dp; simpl; [done|].
  pose proof (progress_hook_process d dp) as Hp.
  destruct (progress_hook d dp) as [[u|e] dp1]; simpl in *.
  - by rewrite IH.
  - done.
Qed.

Lemma run_hooks_reachable events : forall dp,
  reachable dp -> reachable (snd (run_hooks events dp)).
Proof.
  induction events as [|d rest IH]; intros dp Hdp; simpl; [done|].
  assert (reachable (snd (progress_hook d dp))) as Hr
    by (eapply reach_step; [exact Hdp|constructor]).
  destruct (progress_hook d dp) as [[u|e] dp1]; simpl in *; auto.
Qed.

(** ** [/cancel] *)

(** C2 (as the code has it): with no process handle recorded the function
    body falls off its end: the handler gives back no response value at
    all, neither [{status: "cancelled"}] nor [{error}], whatever the
    process utilities would do; the record is left as it was. *)
Theorem cancel_idle_gives_no_response :
  forall kill_tree,
    process init = None /\
    cancel_download kill_tree init = (Ret None, init).
Proof. intros kill_tree. split; reflexivity. Qed.

Lemma cancel_no_process kill_tree dp :
  process dp = None -> cancel_download kill_tree dp = (Ret None, dp).
Proof. intros H. unfold cancel_download. by rewrite H. Qed.

(** C8: when a process handle is recorded and killing the process tree
    raises, the record is left exactly as it was, field by field, and an
    error (any [Exception]) is answered as [{error: str(e)}] with status
    500. *)
Theorem cancel_kill_failure_keeps_progress :
  forall kill_tree dp p e,
    process dp = Some p ->
    kill_tree (pid p) = Raise e ->
    let dp' := snd (cancel_download kill_tree dp) in
    (progress dp' = progress dp /\ speed dp' = speed dp /\ eta dp' = eta dp
     /\ status dp' = status dp /\ process dp' = process dp)
    /\ (is_Exception e = true ->
        fst (cancel_download kill_tree dp)
        = Ret (Some {| resp_body := JsonError (str_exn e) None; resp_code := 500 |})).
Proof.
  intros kill_tree dp p e Hp Hk. unfold cancel_download.
  rewrite Hp, Hk. destruct (is_Exception e); simpl; by repeat split.
Qed.

Lemma cancel_kill_failure_keeps_progress_witness :
  let kill_tree := fun _ : Z => Raise (A := unit) (Exn OtherException "process no longer exists") in
  let dp := set_process (Some {| pid := 4242 |}) init in
  snd (cancel_download kill_tree dp) = dp
  /\ fst (cancel_download kill_tree dp)
     = Ret (Some {| resp_body := JsonError "process no longer exists" None;
                    resp_code := 500 |}).
Proof.
  destruct (cancel_kill_failure_keeps_progress
              (fun _ => Raise (Exn OtherException "process no longer exists"))
              (set_process (Some {| pid := 4242 |}) init)
              {| pid := 4242 |}
              (Exn OtherException "process no longer exists")
              eq_refl eq_refl) as [_ Hresp].
  split; [reflexivity | exact (Hresp eq_refl)].
Defined.

Lemma cancel_status kill_tree dp :
  status (snd (cancel_download kill_tree dp)) = status dp
  \/ status (snd (cancel_download kill_tree dp)) = "cancelled".
Proof.
  unfold cancel_download. destruct (process dp) as [p|]; [|by left].
  destruct (kill_tree (pid p)) as [u|e]; [by right|].
  destruct (is_Exception e); by left.
Qed.

(** ** [/reset-progress] *)

(** C3 (as the code has it): a reset writes progress 0, speed 0, eta 0
    (the numbers, not the strings of the constructor) and status
    ["starting"], and leaves the process field alone; a [/progress] right
    after it answers exactly these four values. *)
Theorem reset_progress_writes_zeros :
  forall dp,
    reset_progress dp
    = (Ret (Some {| resp_body := JsonStatus "reset"; resp_code := 200 |}),
       {| progress := PyInt 0; speed := PyInt 0; eta := PyInt 0;
          status := "starting"; process := process dp |})
    /\ fst (get_progress (snd (reset_progress dp)))
       = Ret (Some {| resp_body := JsonProgress (PyInt 0) (PyInt 0) (PyInt 0) "starting";
                      resp_code := 200 |}).
Proof. intros dp. split; reflexivity. Qed.

(** C3 as stated fails: after a reset of the freshly constructed record
    the speed and eta are not the constructor's ["0 KiB/s"] and ["00:00"],
    so the record differs from the initial one and [/progress] does not
    answer the default speed and eta. *)
Lemma reset_progress_not_initial :
  snd (reset_progress init) <> init
  /\ speed (snd (reset_progress init)) <> PyStr "0 KiB/s"
  /\ eta (snd (reset_progress init)) <> PyStr "00:00"
  /\ fst (get_progress (snd (reset_progress init)))
     <> Ret (Some (jsonify (JsonProgress (PyInt 0) (PyStr "0 KiB/s") (PyStr "00:00")
                              "starting"))).
Proof. repeat split; discriminate. Qed.

(** ** The status field *)

Lemma step_status dp dp' :
  step dp dp' -> status dp' = status dp \/ status_written (status dp').
Proof.
  unfold status_written. intros [d dp0|k dp0|dp0|dp0|p dp0].
  - destruct (progress_hook_status d dp0); auto.
  - destruct (cancel_status k dp0); auto.
  - right. by left.
  - by left.
  - by left.
Qed.

(** C9: in every record the operations can produce from the constructed
    one, the status is one of ["starting"], ["finished"], ["cancelled"];
    it is never ["downloading"]. *)
Theorem status_never_downloading :
  forall dp, reachable dp ->
    status_written (status dp) /\ status dp <> "downloading".
Proof.
  assert (forall dp, reachable dp -> status_written (status dp)) as Hw.
  { induction 1 as [|dp dp' _ IH Hs].
    - by left.
    - destruct (step_status _ _ Hs) as [->|]; auto. }
  intros dp Hdp. split; [by apply Hw|].
  destruct (Hw dp Hdp) as [->|[->| ->]]; discriminate.
Qed.

Lemma status_never_downloading_witness :
  let dp := snd (progress_hook {[ "status" := PyStr "finished" ]} init) in
  status_written (status dp) /\ status dp <> "downloading".
Proof.
  apply status_never_downloading.
  eapply reach_step; [apply reach_init | apply step_hook].
Defined.

(** ** [/download] *)

Lemma not_audio_of_format_map q fmt :
  format_map !! q = Some fmt -> is_audio q = false.
Proof.
  intros H. apply elem_of_list_to_map_2 in H.
  repeat (apply elem_of_cons in H as [H|H]; [by simplify_eq|]).
  by apply elem_of_nil in H.
Qed.

Section DownloadProperties.

Variable FFMPEG_PATH : string.
Variable server_process : Process.
Variable mkdtemp : outcome string.
Variable path_join : string -> string -> string.
Variable splitext_root : string -> string.
Variable basename : string -> string.
Variable path_exists : string -> bool.
Variable read_file : string -> outcome (list Byte.byte).
Variable info : Type.
Variable YoutubeDL : ydl_opts -> outcome unit.
Variable extract_info : ydl_opts -> string -> list dict * outcome info.
Variable prepare_filename : ydl_opts -> info -> outcome string.

Local Abbreviation download :=
  (download_video FFMPEG_PATH server_process mkdtemp path_join splitext_root
     basename path_exists read_file info YoutubeDL extract_info prepare_filename).

Lemma download_except_returns e dp r dp' :
  download_except e dp = (Ret r, dp') -> process dp' = None.
Proof.
  unfold download_except. destruct (is_Exception e); intros H; by simplify_eq.
Qed.

(** A download only makes writes the step relation has: the two to the
    process field and those of the callback. *)
Lemma download_reachable video_id quality dp :
  reachable dp -> reachable (snd (download video_id quality dp)).
Proof.
  assert (forall e dp0, reachable dp0 -> reachable (snd (download_except e dp0)))
    as Hexcept.
  { intros e dp0 H0. unfold download_except.
    destruct (is_Exception e); simpl; [|done].
    eapply reach_step; [exact H0|constructor]. }
  intros Hdp. unfold download_video.
  destruct mkdtemp as [temp_dir|e]; [|by apply Hexcept].
  destruct quality as [q|]; [|by apply Hexcept].
  destruct (YoutubeDL _) as [u|e]; [|by apply Hexcept].
  assert (reachable (set_process (Some server_process) dp)) as Hstart
    by (eapply reach_step; [exact Hdp|constructor]).
  unfold download_body.
  destruct (extract_info _ _) as [events result].
  pose proof (run_hooks_reachable events _ Hstart) as Hrun.
  destruct (run_hooks events _) as [[u'|e] dp1]; simpl in Hrun.
  - assert (reachable (set_process None dp1)) as Hend
      by (eapply reach_step; [exact Hrun|constructor]).
    destruct result as [i|e]; [|by apply Hexcept].
    destruct (prepare_filename _ _) as [prepared|e]; [|by apply Hexcept].
    destruct (negb (path_exists _)); [by apply Hexcept|].
    destruct (read_file _) as [file_data|e]; [done|by apply Hexcept].
  - apply Hexcept. eapply reach_step; [exact Hrun|constructor].
Qed.

(** C10: whenever the handler returns a response, be it the attachment
    or an error answer, the process field of the record is [None]. *)
Theorem download_returns_without_process :
  forall video_id quality dp r dp',
    download video_id quality dp = (Ret r, dp') ->
    process dp' = None.
Proof.
  intros video_id quality dp r dp'. unfold download, download_video.
  destruct mkdtemp as [temp_dir|e]; [|apply download_except_returns].
  destruct quality as [q|]; [|apply download_except_returns].
  destruct (YoutubeDL _) as [u|e]; [|apply download_except_returns].
  destruct (download_body _ _ _ _ _ _ _ _ _ _ _) as [[resp|e] dp1].
  - intros H. by simplify_eq.
  - apply download_except_returns.
Qed.

(** Any attachment the handler sends has the mimetype of its path. *)
Lemma download_attachment_mimetype video_id q dp data name mt code dp' :
  download video_id (Some q) dp
  = (Ret (Some {| resp_body := Attachment data name mt; resp_code := code |}), dp') ->
  mt = if is_audio q then "audio/mp3" else "video/mp4".
Proof.
  unfold download, download_video, download_except.
  destruct mkdtemp as [temp_dir|e];
    [|destruct (is_Exception e); intros H; by simplify_eq].
  destruct (YoutubeDL _) as [u|e];
    [|destruct (is_Exception e); intros H; by simplify_eq].
  unfold download_body.
  destruct (extract_info _ _) as [events result].
  destruct (run_hooks _ _) as [[u'|e] dp1];
    [|destruct (is_Exception e); intros H; by simplify_eq].
  destruct result as [i|e];
    [|destruct (is_Exception e); intros H; by simplify_eq].
  destruct (prepare_filename _ _) as [prepared|e];
    [|destruct (is_Exception e); intros H; by simplify_eq].
  destruct (negb (path_exists _)); [intros H; by simplify_eq|].
  destruct (read_file _) as [file_data|e];
    [|destruct (is_Exception e); intros H; by simplify_eq].
  intros H. by simplify_eq.
Qed.

(** C6: a selector that starts with [audio_] builds the audio options
    (the selector with [audio_] removed as format, extraction to mp3),
    every attachment sent for it is [audio/mp3], and a run in which the
    extractor succeeds and the mp3 file is there sends one; a key of
    [format_map] (4k, 1440p, 1080p, 720p, 480p) takes the video options
    with the format string mapped to it; any other selector takes the
    video options with the format string of 1080p. *)
Theorem download_selector_routing :
  forall (video_id : option string) (q : string) (dp : DownloadProgress),
    let opts tmpl := build_opts FFMPEG_PATH tmpl q in
    (is_audio q = true ->
       (forall tmpl,
          opt_format (opts tmpl) = str_replace "audio_" "" q
          /\ opt_postprocessors (opts tmpl) = [FFmpegExtractAudio "mp3" "192"])
       /\ (forall data name mt code dp',
             download video_id (Some q) dp
             = (Ret (Some {| resp_body := Attachment data name mt;
                             resp_code := code |}), dp') ->
             mt = "audio/mp3")
       /\ (forall temp_dir events i prepared file_data,
             let o := opts (path_join temp_dir "%(title)s.%(ext)s") in
             let url := "https://www.youtube.com/watch?v=" +:+ str_opt video_id in
             let filename := splitext_root prepared +:+ ".mp3" in
             mkdtemp = Ret temp_dir ->
             YoutubeDL o = Ret tt ->
             extract_info o url = (events, Ret i) ->
             fst (run_hooks events (set_process (Some server_process) dp)) = Ret tt ->
             prepare_filename o i = Ret prepared ->
             path_exists filename = true ->
             read_file filename = Ret file_data ->
             fst (download video_id (Some q) dp)
             = Ret (Some {| resp_body :=
                              Attachment file_data (basename filename) "audio/mp3";
                            resp_code := 200 |})))
    /\ dom format_map = list_to_set ["4k"; "1440p"; "1080p"; "720p"; "480p"]
    /\ (forall fmt tmpl,
          format_map !! q = Some fmt ->
          opt_format (opts tmpl) = fmt
          /\ opt_postprocessors (opts tmpl) = [FFmpegVideoRemuxer "mkv"]
          /\ opt_merge_output_format (opts tmpl) = Some "mkv")
    /\ (forall tmpl,
          is_audio q = false -> format_map !! q = None ->
          opt_format (opts tmpl)
          = "bestvideo[height<=1080][ext=webm]+bestaudio[ext=webm]/best[height<=1080]"
          /\ format_map !! "1080p" = Some (opt_format (opts tmpl))
          /\ opt_postprocessors (opts tmpl) = [FFmpegVideoRemuxer "mkv"]).
Proof.
  intros video_id q dp opts. subst opts.
  split; [|split; [|split]].
  - intros Ha. split; [|split].
    + intros tmpl. unfold build_opts. by rewrite Ha.
    + intros data name mt code dp' Hd.
      apply download_attachment_mimetype in Hd. by rewrite Ha in Hd.
    + intros temp_dir events i prepared file_data o url filename
        Hmk Hy He Hh Hp Hx Hr.
      subst o url filename.
      unfold download, download_video, download_body.
      rewrite Hmk, Hy, He. rewrite Ha in *.
      destruct (run_hooks events _) as [[u|e] dp1]; simpl in Hh; [|done].
      by rewrite Hp, Hx, Hr.
  - apply set_eq. intros x. rewrite elem_of_dom. unfold format_map.
    split.
    + intros [fmt Hf]. apply elem_of_list_to_map_2 in Hf.
      repeat (apply elem_of_cons in Hf as [Hf|Hf]; [simplify_eq; set_solver|]).
      by apply elem_of_nil in Hf.
    + intros Hx. rewrite !list_to_set_cons, !elem_of_union, !elem_of_singleton in Hx.
      destruct Hx as [->|[->|[->|[->|[->|Hx]]]]]; [by eexists..|].
      by apply elem_of_empty in Hx.
  - intros fmt tmpl Hf. unfold build_opts.
    rewrite (not_audio_of_format_map _ _ Hf). by rewrite Hf.
  - intros tmpl Ha Hf. unfold build_opts. rewrite Ha, Hf. by repeat split.
Qed.

End DownloadProperties.

Lemma download_returns_without_process_witness :
  process (snd (Sample.download Sample.extract_fails (Some "abc") (Some "720p") init))
  = None.
Proof.
  apply (download_returns_without_process
           "bin/ffmpeg.exe" Sample.server_process (Ret "/tmp/dl") Sample.path_join
           Sample.splitext_root Sample.basename (fun _ => true)
           (fun _ => Ret Sample.file_data) unit (fun _ => Ret tt)
           Sample.extract_fails (fun _ _ => Ret "/tmp/dl/clip.webm")
           (Some "abc") (Some "720p") init
           (Some {| resp_body :=
                      JsonError "ERROR: Video unavailable"
                        (Some "Check server logs for more information");
                    resp_code := 500 |})).
  vm_compute. reflexivity.
Defined.

Lemma download_selector_routing_witness :
  fst (Sample.download Sample.extract_ok (Some "abc") (Some "audio_140") init)
  = Ret (Some {| resp_body := Attachment Sample.file_data "clip.mp3" "audio/mp3";
                 resp_code := 200 |})
  /\ opt_format (build_opts "bin/ffmpeg.exe" "out" "audio_140") = "140"
  /\ opt_format (build_opts "bin/ffmpeg.exe" "out" "720p")
     = "bestvideo[height=720][ext=webm]+bestaudio[ext=webm]/best[height=720]"
  /\ opt_format (build_opts "bin/ffmpeg.exe" "out" "best")
     = "bestvideo[height<=1080][ext=webm]+bestaudio[ext=webm]/best[height<=1080]".
Proof.
  pose (routing := download_selector_routing
          "bin/ffmpeg.exe" Sample.server_process (Ret "/tmp/dl") Sample.path_join
          Sample.splitext_root Sample.basename (fun _ => true)
          (fun _ => Ret Sample.file_data) unit (fun _ => Ret tt)
          Sample.extract_ok (fun _ _ => Ret "/tmp/dl/clip.webm") (Some "abc")).
  split; [|split; [|split]].
  - destruct (routing "audio_140" init) as [Haudio _].
    destruct (Haudio eq_refl) as (_ & _ & Hrun).
    exact (Hrun "/tmp/dl" Sample.events tt "/tmp/dl/clip.webm" Sample.file_data
             eq_refl eq_refl eq_refl eq_refl eq_refl eq_refl eq_refl).
  - destruct (routing "audio_140" init) as [Haudio _].
    destruct (Haudio eq_refl) as (Hopts & _ & _).
    exact (proj1 (Hopts "out")).
  - destruct (routing "720p" init) as (_ & _ & Hmap & _).
    exact (proj1 (Hmap _ "out" eq_refl)).
  - destruct (routing "best" init) as (_ & _ & _ & Hdflt).
    exact (proj1 (Hdflt "out" eq_refl eq_refl)).
Defined.

(** ** [/summarize] *)

Lemma ascii_lower_not_capital_A c : ascii_lower c <> Ascii.ascii_of_N 65.
Proof. destruct c as [[] [] [] [] [] [] [] []]; vm_compute; discriminate. Qed.

(** A needle whose first character no lower-casing yields never occurs in
    a lower-cased string. *)
Lemma needle_not_in_lower c0 needle s :
  (forall c, ascii_lower c <> c0) ->
  str_contains (String c0 needle) (str_lower s) = false.
Proof.
  intros Hc0. induction s as [|c rest IH]; [done|].
  cbn [str_lower str_contains String.prefix].
  rewrite IH, orb_false_r.
  destruct (Ascii.ascii_dec c0 (ascii_lower c)) as [Heq|]; [|done].
  by destruct (Hc0 c).
Qed.

Lemma invalid_key_test_never_holds msg :
  str_contains "API key not valid" (str_lower msg) = false.
Proof. apply needle_not_in_lower, ascii_lower_not_capital_A. Qed.

Section SummarizeProperties.

Variable model : Type.
Variable GenerativeModel : string -> string -> outcome model.
Variable generate_content : model -> string -> pyval -> outcome gen_response.
Variable str_block_reason : Z -> string.

Local Abbreviation summarize :=
  (summarize_text model GenerativeModel generate_content str_block_reason).

(** An empty or absent [text] is answered 400. *)
Lemma summarize_no_text members api_key :
  truthy (get_or members "text" (PyStr "")) = false ->
  summarize (Ret (JsonObject members)) api_key
  = Ret {| resp_body := JsonError "No text provided" None; resp_code := 400 |}.
Proof. intros H. unfold summarize, summarize_text. by rewrite H. Qed.

(** With a text, an absent (or empty) key header is answered 401. *)
Lemma summarize_no_key members api_key :
  truthy (get_or members "text" (PyStr "")) = true ->
  api_key = None \/ api_key = Some "" ->
  summarize (Ret (JsonObject members)) api_key
  = Ret {| resp_body := JsonError "No API key provided" None; resp_code := 401 |}.
Proof.
  intros H [->| ->]; unfold summarize, summarize_text; by rewrite H.
Qed.

(** With a text and a key, every [Exception] out of the model call is
    answered 500, whatever its message says. *)
Lemma summarize_collaborator_error members k e :
  truthy (get_or members "text" (PyStr "")) = true ->
  k <> "" ->
  summarize_try model GenerativeModel generate_content str_block_reason (Some k)
    (get_or members "text" (PyStr "")) = Raise e ->
  is_Exception e = true ->
  summarize (Ret (JsonObject members)) (Some k)
  = Ret {| resp_body :=
             JsonError "Failed to generate summary. Please try again later."
               (Some (str_exn e));
           resp_code := 500 |}.
Proof.
  intros Ht Hk He Hc. unfold summarize, summarize_text.
  rewrite Ht. simpl.
  destruct k as [|c k]; [done|]. simpl.
  rewrite He, Hc. by rewrite invalid_key_test_never_holds.
Qed.

End SummarizeProperties.

(** C1 (as the code has it): the test for an invalid key looks for
    ["API key not valid"], capital letters included, in the lower-cased
    message, so it never holds: a request with a text and a key whose model
    call raises the invalid-key error is answered 500 with the generic
    message, not 401 with the invalid-key message; so is every other
    message. *)
Theorem summarize_invalid_key_answers_500 :
  Sample.summarize Sample.key_rejected
    (Ret (JsonObject {[ "text" := PyStr "a transcript" ]})) (Some "wrong-key")
  = Ret {| resp_body :=
             JsonError "Failed to generate summary. Please try again later."
               (Some "400 API key not valid. Please pass a valid API key.");
           resp_code := 500 |}
  /\ forall msg,
       Sample.summarize msg
         (Ret (JsonObject {[ "text" := PyStr "a transcript" ]})) (Some "wrong-key")
       = Ret {| resp_body :=
                  JsonError "Failed to generate summary. Please try again later."
                    (Some msg);
                resp_code := 500 |}.
Proof.
  split; [by vm_compute|].
  intros msg. unfold Sample.summarize.
  by apply (summarize_collaborator_error _ _ _ _
              {[ "text" := PyStr "a transcript" ]} "wrong-key"
              (Exn OtherException msg)).
Qed.

(** ** [/get-transcript] *)

(** The answer built from a transcript and its fetched data. *)
Lemma get_transcript_answer vid language_arg tl t es :
  vid <> "" ->
  choose_transcript tl (default "en" language_arg) = Ret t ->
  fetch t = Ret es ->
  get_transcript (Some vid) language_arg (Ret tl)
  = Ret {| resp_body :=
             JsonTranscript (join_lines (format_entry <$> es))
               (language t) (is_generated t);
           resp_code := 200 |}.
Proof.
  intros Hv Hc Hf. unfold get_transcript.
  destruct vid as [|c vid]; [done|]. by rewrite Hc, Hf.
Qed.

(** C7: the handler looks for the transcript with
    [find_transcript([language])] first (the lookup that serves the
    manual transcript of that language), when that raises with
    [find_generated_transcript([language])], and when that raises too it
    takes [find_generated_transcript(['hi'])] and translates it into the
    requested language; the answer is built from the transcript found
    first in this order, and its [language] field is the language of that
    final transcript, the translated one on the last path. *)
Theorem get_transcript_fallback_order :
  forall (vid : string) (language_arg : option string) (tl : TranscriptList),
    vid <> "" ->
    let lang := default "en" language_arg in
    let answer t es :=
      Ret {| resp_body :=
               JsonTranscript (join_lines (format_entry <$> es))
                 (language t) (is_generated t);
             resp_code := 200 |} in
    (forall t es,
        find_transcript tl [lang] = Ret t ->
        fetch t = Ret es ->
        get_transcript (Some vid) language_arg (Ret tl) = answer t es)
    /\ (forall e t es,
          find_transcript tl [lang] = Raise e ->
          find_generated_transcript tl [lang] = Ret t ->
          fetch t = Ret es ->
          get_transcript (Some vid) language_arg (Ret tl) = answer t es)
    /\ (forall e e' hindi t es,
          find_transcript tl [lang] = Raise e ->
          find_generated_transcript tl [lang] = Raise e' ->
          find_generated_transcript tl ["hi"] = Ret hindi ->
          translate hindi lang = Ret t ->
          fetch t = Ret es ->
          get_transcript (Some vid) language_arg (Ret tl) = answer t es)
    /\ (forall transcript lang' generated code,
          get_transcript (Some vid) language_arg (Ret tl)
          = Ret {| resp_body := JsonTranscript transcript lang' generated;
                   resp_code := code |} ->
          exists t,
            choose_transcript tl lang = Ret t
            /\ lang' = language t /\ generated = is_generated t).
Proof.
  intros vid language_arg tl Hv lang answer. subst answer.
  split; [|split; [|split]].
  - intros t es Hm Hf. apply get_transcript_answer; [done| |done].
    unfold choose_transcript. fold lang. by rewrite Hm.
  - intros e t es Hm Hg Hf. apply get_transcript_answer; [done| |done].
    unfold choose_transcript. fold lang. by rewrite Hm, Hg.
  - intros e e' hindi t es Hm Hg Hh Ht Hf.
    apply get_transcript_answer; [done| |done].
    unfold choose_transcript. fold lang. rewrite Hm, Hg.
    destruct (String.eqb_spec lang "hi") as [Heq|Hne].
    + rewrite Heq in Hg. congruence.
    + rewrite Hh. simpl. done.
  - intros transcript lang' generated code. unfold get_transcript.
    destruct vid as [|c vid]; [done|]. fold lang.
    destruct (choose_transcript tl lang) as [t|e].
    + destruct (fetch t) as [es|e].
      * intros H. exists t. by simplify_eq.
      * destruct (is_Exception e); intros H; by simplify_eq.
    + destruct (is_Exception e); intros H; by simplify_eq.
Qed.

Lemma get_transcript_fallback_order_witness :
  get_transcript (Some "abc") (Some "fr") (Ret Sample.only_hindi)
  = Ret {| resp_body :=
             JsonTranscript (join_lines ["[00:00] Bonjour"; "[01:05] Au revoir"])
               "French" true;
           resp_code := 200 |}.
Proof.
  destruct (get_transcript_fallback_order "abc" (Some "fr") Sample.only_hindi)
    as (_ & _ & Hhindi & _); [discriminate|].
  exact (Hhindi Sample.not_found Sample.not_found Sample.hindi_auto Sample.french
           _ eq_refl eq_refl eq_refl eq_refl eq_refl).
Defined.

(** ** [/formats]: the stable descending sort *)

Section SortDescFacts.
Context {A : Type} (geb : A -> A -> bool).
Hypothesis geb_total : forall x y, geb x y = false -> geb y x = true.
Hypothesis geb_trans : forall x y z, geb x y = true -> geb y z = true -> geb x z = true.

Lemma insert_desc_perm x l : insert_desc geb x l ≡ₚ x :: l.
Proof using Type.
  induction l as [|y l IH]; simpl; [done|].
  destruct (geb x y); [done|]. rewrite IH. apply Permutation_swap.
Qed.

Lemma sort_desc_perm l : sort_desc geb l ≡ₚ l.
Proof using Type.
  induction l as [|x l IH]; simpl; [done|].
  by rewrite insert_desc_perm, IH.
Qed.

Lemma insert_desc_sorted x l :
  StronglySorted (fun a b => geb a b = true) l ->
  StronglySorted (fun a b => geb a b = true) (insert_desc geb x l).
Proof using geb_total geb_trans.
  induction 1 as [|y l Hl IH Hy]; simpl; [by repeat constructor|].
  destruct (geb x y) eqn:Hxy.
  - constructor; [by constructor|].
    constructor; [done|]. eapply Forall_impl; [exact Hy|].
    intros z Hz. by eapply geb_trans.
  - constructor; [done|].
    rewrite insert_desc_perm. constructor; [by apply geb_total|done].
Qed.

Lemma sort_desc_sorted l :
  StronglySorted (fun a b => geb a b = true) (sort_desc geb l).
Proof using geb_total geb_trans.
  induction l as [|x l IH]; simpl; [constructor|].
  by apply insert_desc_sorted.
Qed.
End SortDescFacts.

Lemma heights_strictly_descending (l : list Z) :
  NoDup l ->
  StronglySorted (fun a b => Z.geb a b = true) l ->
  StronglySorted (fun a b => b < a) l.
Proof.
  induction 2 as [|x l Hl IH Hx]; [constructor|].
  apply NoDup_cons in H as [Hnotin Hnd].
  constructor; [by apply IH|].
  apply Forall_forall. intros y Hy.
  rewrite Forall_forall in Hx. specialize (Hx y Hy).
  assert (x <> y) by (intros ->; done). lia.
Qed.

Lemma sorted_heights (format_info : gmap Z video_info) :
  StronglySorted (fun a b => b < a)
    (sort_desc Z.geb (map_to_list format_info).*1).
Proof.
  apply heights_strictly_descending.
  - rewrite sort_desc_perm. apply NoDup_fst_map_to_list.
  - apply sort_desc_sorted; intros; lia.
Qed.

(** ** [/formats]: the video entries *)

Lemma video_option_at_sorted format_info l :
  StronglySorted (fun a b => b < a) l ->
  exists hs,
    Forall2 (video_entry_of format_info) (omap (video_option_at format_info) l) hs
    /\ StronglySorted (fun a b => b < a) hs
    /\ (forall x, x ∈ hs -> x ∈ l).
Proof.
  induction 1 as [|h l Hl IH Hh].
  { exists []. repeat split; [constructor..|done]. }
  destruct IH as (hs & Hf & Hsorted & Hsub). simpl.
  unfold video_option_at at 1.
  destruct (resolution_map !! h) as [idl|] eqn:Hr;
    [destruct (format_info !! h) as [kept|] eqn:Hk|].
  - exists (h :: hs). split; [|split].
    + constructor; [by exists idl, kept|done].
    + constructor; [done|].
      apply Forall_forall. intros x Hx.
      rewrite Forall_forall in Hh. apply Hh. by apply Hsub.
    + intros x Hx. apply elem_of_cons in Hx as [->|Hx]; [left|right]; auto.
  - exists hs. repeat split; auto. intros x Hx. right. auto.
  - exists hs. repeat split; auto. intros x Hx. right. auto.
Qed.

Lemma video_options_descending format_info :
  exists hs,
    Forall2 (video_entry_of format_info) (video_options format_info) hs
    /\ StronglySorted (fun a b => b < a) hs.
Proof.
  destruct (video_option_at_sorted format_info _ (sorted_heights format_info))
    as (hs & Hf & Hs & _).
  by exists hs.
Qed.

Lemma video_options_type format_info :
  Forall (fun o => type o = "video") (video_options format_info).
Proof.
  destruct (video_options_descending format_info) as (hs & Hf & _).
  induction Hf as [|o h os hs' Ho _ IH]; constructor; [|done].
  by destruct Ho as (idl & kept & _ & _ & ->).
Qed.

(** ** [/formats]: the format kept per height *)

Lemma size_le_refl a : size_le a a.
Proof. destruct a; simpl; [lia|done]. Qed.

Lemma height_of_positive f h :
  fget_or (height f) 0 = Some h -> 0 < h -> height f = Val h.
Proof. destruct (height f); simpl; intros; simplify_eq; [lia|done]. Qed.

Lemma largest_at_snoc_other seen f h kept :
  largest_at seen h kept ->
  (is_video_only f = true -> height f <> Val h) ->
  largest_at (seen ++ [f]) h kept.
Proof.
  intros (g & Hg & Hv & Hh & Hk & Hmax) Hother.
  exists g. repeat split; auto.
  - apply elem_of_app. by left.
  - intros f' Hf' Hv' Hh'.
    apply elem_of_app in Hf' as [Hf'|Hf']; [by apply Hmax|].
    apply list_elem_of_singleton in Hf' as ->. by destruct Hother.
Qed.

Lemma largest_at_snoc_le seen f h kept :
  largest_at seen h kept ->
  size_le (fget_or (filesize f) 0) (vi_filesize kept) ->
  largest_at (seen ++ [f]) h kept.
Proof.
  intros (g & Hg & Hv & Hh & Hk & Hmax) Hle.
  exists g. repeat split; auto.
  - apply elem_of_app. by left.
  - intros f' Hf' Hv' Hh'.
    apply elem_of_app in Hf' as [Hf'|Hf']; [by apply Hmax|].
    by apply list_elem_of_singleton in Hf' as ->.
Qed.

Lemma largest_at_snoc_new seen f h :
  is_video_only f = true -> height f = Val h ->
  (forall f', f' ∈ seen -> is_video_only f' = true -> height f' = Val h ->
     size_le (fget_or (filesize f') 0) (fget_or (filesize f) 0)) ->
  largest_at (seen ++ [f]) h (info_of f).
Proof.
  intros Hv Hh Hmax. exists f. repeat split; auto.
  - apply elem_of_app. right. by apply list_elem_of_singleton.
  - intros f' Hf' Hv' Hh'. simpl.
    apply elem_of_app in Hf' as [Hf'|Hf']; [by apply Hmax|].
    apply list_elem_of_singleton in Hf' as ->. apply size_le_refl.
Qed.

Lemma collected_snoc_skip seen f format_info :
  collected seen format_info ->
  (is_video_only f = true -> forall h, height f = Val h -> ~ 0 < h) ->
  collected (seen ++ [f]) format_info.
Proof.
  intros [Hkeys Hseen] Hskip. split.
  - intros h kept Hk. destruct (Hkeys h kept Hk) as [Hpos Hl].
    split; [done|]. apply largest_at_snoc_other; [done|].
    intros Hv Hh. by apply (Hskip Hv h).
  - intros g h Hg Hv Hh Hpos.
    apply elem_of_app in Hg as [Hg|Hg]; [by eapply Hseen|].
    apply list_elem_of_singleton in Hg as ->. by destruct (Hskip Hv h).
Qed.

Lemma collected_snoc_insert seen f h format_info :
  collected seen format_info ->
  is_video_only f = true -> height f = Val h -> 0 < h ->
  (forall kept, format_info !! h = Some kept ->
     exists x y, vi_filesize kept = Some x /\ fget_or (filesize f) 0 = Some y /\ x < y) ->
  collected (seen ++ [f]) (<[h := info_of f]> format_info).
Proof.
  intros [Hkeys Hseen] Hv Hh Hpos Hlarger. split.
  - intros k kept Hk. destruct (decide (h = k)) as [<-|Hne].
    + rewrite lookup_insert_eq in Hk. simplify_eq. split; [done|].
      apply largest_at_snoc_new; [done..|].
      intros f' Hf' Hv' Hh'.
      destruct (Hseen f' h Hf' Hv' Hh' Hpos) as [old Hold].
      destruct (Hlarger old Hold) as (x & y & Hx & Hy & Hxy).
      destruct (Hkeys h old Hold) as [_ (g & _ & _ & _ & _ & Hmax)].
      specialize (Hmax f' Hf' Hv' Hh'). rewrite Hx in Hmax. rewrite Hy.
      destruct (fget_or (filesize f') 0); simpl in *; [lia|done].
    + rewrite lookup_insert_ne in Hk by done.
      destruct (Hkeys k kept Hk) as [Hkpos Hl]. split; [done|].
      apply largest_at_snoc_other; [done|]. intros _ Hh'. congruence.
  - intros g k Hg Hvg Hhg Hkpos. destruct (decide (h = k)) as [<-|Hne].
    + rewrite lookup_insert_eq. by eexists.
    + rewrite lookup_insert_ne by done.
      apply elem_of_app in Hg as [Hg|Hg]; [by eapply Hseen|].
      apply list_elem_of_singleton in Hg as ->. congruence.
Qed.

Lemma collected_snoc_keep seen f h kept format_info :
  collected seen format_info ->
  height f = Val h ->
  format_info !! h = Some kept ->
  size_le (fget_or (filesize f) 0) (vi_filesize kept) ->
  collected (seen ++ [f]) format_info.
Proof.
  intros [Hkeys Hseen] Hh Hk Hle. split.
  - intros k kept' Hk'. destruct (Hkeys k kept' Hk') as [Hkpos Hl].
    split; [done|]. destruct (decide (h = k)) as [<-|Hne].
    + simplify_eq. by apply largest_at_snoc_le.
    + apply largest_at_snoc_other; [done|]. intros _ Hh'. congruence.
  - intros g k Hg Hvg Hhg Hkpos.
    apply elem_of_app in Hg as [Hg|Hg]; [by eapply Hseen|].
    apply list_elem_of_singleton in Hg as ->.
    assert (k = h) as -> by congruence. by eexists.
Qed.

Lemma collect_step_collected seen format_info audio_formats f st' :
  collected seen format_info ->
  collect_step (format_info, audio_formats) f = Ret st' ->
  collected (seen ++ [f]) (fst st').
Proof.
  intros Hc. unfold collect_step.
  destruct (is_video_only f) eqn:Hv.
  - destruct (fget_or (height f) 0) as [h|] eqn:Hh; [|done].
    destruct (0 <? h) eqn:Hpos.
    + apply Z.ltb_lt in Hpos.
      pose proof (height_of_positive f h Hh Hpos) as Hval.
      destruct (format_info !! h) as [kept|] eqn:Hk.
      * unfold gt_opt.
        destruct (fget_or (filesize f) 0) as [y|] eqn:Hy; [|done].
        destruct (vi_filesize kept) as [x|] eqn:Hx; [|done]. simpl.
        destruct (x <? y) eqn:Hxy; intros H; simplify_eq; simpl.
        -- apply Z.ltb_lt in Hxy.
           apply collected_snoc_insert; [done..|].
           intros kept' Hk'. simplify_eq. by exists x, y.
        -- apply Z.ltb_ge in Hxy.
           eapply collected_snoc_keep; [done..|].
           rewrite Hy, Hx. done.
      * intros H. simplify_eq. simpl.
        apply collected_snoc_insert; [done..|]. intros kept' Hk'. congruence.
    + apply Z.ltb_ge in Hpos. intros H. simplify_eq. simpl.
      apply collected_snoc_skip; [done|].
      intros _ k Hk. rewrite Hk in Hh. simpl in Hh. simplify_eq. lia.
  - assert (collected (seen ++ [f]) format_info) as Hskip
      by (apply collected_snoc_skip; [done|congruence]).
    destruct (is_audio_only f); [|intros H; by simplify_eq].
    destruct (fget (abr f)) as [q|]; [|intros H; by simplify_eq].
    destruct (Qeq_bool q 0); [intros H; by simplify_eq|].
    destruct (fget_or (protocol f) "") as [proto|]; [|done].
    destruct (_ || _); intros H; by simplify_eq.
Qed.

Lemma collect_collected formats : forall seen st st',
  collected seen (fst st) ->
  collect formats st = Ret st' ->
  collected (seen ++ formats) (fst st').
Proof.
  induction formats as [|f rest IH]; intros seen st st' Hc; simpl.
  - intros H. simplify_eq. by rewrite app_nil_r.
  - destruct st as [format_info audio_formats].
    destruct (collect_step (format_info, audio_formats) f) as [st1|e] eqn:Hstep;
      [|done].
    simpl. intros Hrest.
    replace (seen ++ f :: rest) with ((seen ++ [f]) ++ rest)
      by (by rewrite <- app_assoc).
    eapply IH; [|exact Hrest].
    eapply collect_step_collected; [exact Hc|exact Hstep].
Qed.

Lemma collected_empty : collected [] ∅.
Proof.
  split.
  - intros h kept H. by rewrite lookup_empty in H.
  - intros f h Hf. by apply elem_of_nil in Hf.
Qed.

(** ** [/formats]: the audio entries come after the video entries *)

Lemma audio_step_appends st audio :
  exists extra,
    snd (audio_step st audio) = snd st ++ extra
    /\ Forall (fun o => type o = "audio") extra.
Proof.
  destruct st as [added options]. unfold audio_step.
  repeat match goal with
         | |- context [if ?b then _ else _] => destruct b
         end; simpl;
    first [ by (eexists [_]; split; [done|by repeat constructor])
          | by (exists []; split; [by rewrite app_nil_r|constructor]) ].
Qed.

Lemma audio_fold_appends l : forall st,
  exists extra,
    snd (fold_left audio_step l st) = snd st ++ extra
    /\ Forall (fun o => type o = "audio") extra.
Proof.
  induction l as [|audio l IH]; intros st; simpl.
  - exists []. split; [by rewrite app_nil_r|constructor].
  - destruct (IH (audio_step st audio)) as (extra2 & -> & H2).
    destruct (audio_step_appends st audio) as (extra1 & -> & H1).
    exists (extra1 ++ extra2). split; [by rewrite app_assoc|].
    by apply Forall_app.
Qed.

Lemma filter_video_all (l : list format_option) :
  Forall (fun o => type o = "video") l ->
  filter (fun o => type o = "video") l = l.
Proof.
  induction 1 as [|o l Ho _ IH]; [done|].
  by rewrite filter_cons_True, IH.
Qed.

Lemma filter_video_none (l : list format_option) :
  Forall (fun o => type o = "audio") l ->
  filter (fun o => type o = "video") l = [].
Proof.
  induction 1 as [|o l Ho _ IH]; [done|].
  rewrite filter_cons_False; [done|]. by rewrite Ho.
Qed.

Lemma video_entries_of_answer audio_formats format_info :
  filter (fun o => type o = "video")
    (audio_options audio_formats (video_options format_info))
  = video_options format_info.
Proof.
  unfold audio_options.
  destruct (audio_fold_appends (sort_desc abr_geb audio_formats)
              (∅, video_options format_info)) as (extra & -> & Hextra).
  simpl. rewrite filter_app, (filter_video_none extra Hextra), app_nil_r. apply filter_video_all, video_options_type.
Qed.

Lemma resolution_map_tiers h idl :
  resolution_map !! h = Some idl -> h ∈ [2160; 1440; 1080; 720; 480].
Proof.
  intros H. apply elem_of_list_to_map_2 in H.
  repeat (apply elem_of_cons in H as [H|H]; [simplify_eq; set_solver|]).
  by apply elem_of_nil in H.
Qed.

(** C5: when the handler answers with a list of entries, its video
    entries stand, in order, for a strictly descending list of heights
    (so no height occurs twice); each height is one of the tiers 2160,
    1440, 1080, 720, 480 and its entry carries the id and label of that
    tier; and the entry is built from the format kept for that height,
    a video-only format of the list whose file size no other video-only
    format of that height exceeds. *)
Theorem video_entries_descending_largest :
  forall video_id formats options code,
    get_formats video_id (Ret (Val formats))
    = Ret {| resp_body := JsonFormats options; resp_code := code |} ->
    exists hs : list Z,
      StronglySorted (fun a b => b < a) hs
      /\ NoDup hs
      /\ Forall2
           (fun o h =>
              h ∈ [2160; 1440; 1080; 720; 480]
              /\ exists idl kept,
                   resolution_map !! h = Some idl
                   /\ o = video_option h idl kept
                   /\ largest_at formats h kept)
           (filter (fun o => type o = "video") options) hs.
Proof.
  intros video_id formats options code. unfold get_formats.
  destruct video_id as [[|c vid]|]; [done| |done]. simpl.
  destruct (collect formats (∅, [])) as [[format_info audio_formats]|e] eqn:Hc;
    [|destruct (is_Exception e); done].
  intros H. simplify_eq.
  rewrite video_entries_of_answer.
  destruct (video_options_descending format_info) as (hs & Hf & Hs).
  pose proof (collect_collected formats [] (∅, []) _ collected_empty Hc) as [Hkeys _].
  simpl in Hkeys.
  exists hs. split; [done|]. split.
  - clear -Hs. induction Hs as [|h l _ IH Hh]; constructor; [|done].
    intros Hin. rewrite Forall_forall in Hh. specialize (Hh h Hin). lia.
  - eapply Forall2_impl; [exact Hf|].
    intros o h (idl & kept & Hr & Hk & ->).
    split; [by eapply resolution_map_tiers|].
    exists idl, kept. repeat split; [done|]. by apply Hkeys.
Qed.

Lemma video_entries_descending_largest_witness :
  exists hs : list Z,
    StronglySorted (fun a b => b < a) hs
    /\ NoDup hs
    /\ Forall2
         (fun o h =>
            h ∈ [2160; 1440; 1080; 720; 480]
            /\ exists idl kept,
                 resolution_map !! h = Some idl
                 /\ o = video_option h idl kept
                 /\ largest_at Sample.formats h kept)
         (filter (fun o => type o = "video") Sample.options) hs.
Proof.
  apply (video_entries_descending_largest (Some "abc") Sample.formats
           Sample.options 200).
  vm_compute. reflexivity.
Defined.

(** ** [/formats]: the audio entries *)

Lemma size_add_level (k : string) (added : gset string) :
  k ∉ added -> size ({[k]} ∪ added) = S (size added).
Proof. intros Hk. rewrite size_union by set_solver. by rewrite size_singleton. Qed.

Lemma audio_step_levels st audio n :
  fst st ⊆ levels ->
  length (snd st) = (n + size (fst st))%nat ->
  fst (audio_step st audio) ⊆ levels
  /\ length (snd (audio_step st audio)) = (n + size (fst (audio_step st audio)))%nat.
Proof.
  destruct st as [added options]. simpl. intros Hsub Hlen. unfold audio_step.
  destruct (Qle_bool 256 (au_abr audio)), (Qle_bool 128 (au_abr audio));
    repeat case_bool_decide; simpl; try done;
    (split;
     [apply union_subseteq; split; [|done];
      apply singleton_subseteq_l; unfold levels;
      rewrite !elem_of_union, !elem_of_singleton; tauto
     |rewrite length_app, size_add_level by done; simpl; lia]).
Qed.

Lemma audio_fold_levels l : forall st n,
  fst st ⊆ levels ->
  length (snd st) = (n + size (fst st))%nat ->
  (length (snd (fold_left audio_step l st)) <= n + 3)%nat.
Proof.
  induction l as [|audio l IH]; intros st n Hsub Hlen; simpl.
  - rewrite Hlen. apply subseteq_size in Hsub.
    assert (size levels = 3%nat) as Hthree by (by vm_compute). lia.
  - destruct (audio_step_levels st audio n Hsub Hlen) as [Hsub' Hlen'].
    by apply IH.
Qed.

(** What the audio loop does guarantee: it adds at most three entries, one
    per quality key. *)
Lemma audio_options_at_most_three audio_formats format_options :
  (length (audio_options audio_formats format_options)
   <= length format_options + 3)%nat.
Proof.
  unfold audio_options.
  apply (audio_fold_levels _ (∅, format_options) (length format_options)).
  - apply empty_subseteq.
  - change (length format_options
            = (length format_options + size (∅ : gset string))%nat).
    rewrite size_empty. lia.
Qed.

(** C4 (as the code has it): a format whose own level is taken is not
    skipped but handed down to the next free level.  For two streams of
    320 and 300 kbps, both in the high bucket by the thresholds, the
    answer has two audio entries: the first labelled high, the second
    labelled medium. *)
Theorem audio_levels_handed_down :
  bucket (320 # 1) = "high" /\ bucket (300 # 1) = "high"
  /\ get_formats (Some "abc") (Ret (Val Sample.two_high))
     = Ret {| resp_body :=
                JsonFormats
                  [ {| formatId := "audio_251"; extension := "mp3";
                       quality := "320kbps";
                       label := "Audio - High Quality (320kbps)";
                       codec := Some "opus"; type := "audio" |};
                    {| formatId := "audio_140"; extension := "mp3";
                       quality := "300kbps";
                       label := "Audio - Medium Quality (300kbps)";
                       codec := Some "opus"; type := "audio" |} ];
              resp_code := 200 |}.
Proof. repeat split; vm_compute; reflexivity. Qed.

(** * Further properties *)

(** ** The callback and the record *)

Lemma run_hooks_status events : forall dp,
  status (snd (run_hooks events dp)) = status dp
  \/ status (snd (run_hooks events dp)) = "finished".
Proof.
  induction events as [|d rest IH]; intros dp; simpl; [by left|].
  pose proof (progress_hook_status d dp) as Hs.
  destruct (progress_hook d dp) as [[u|e] dp1]; simpl in *; [|done].
  destruct (IH dp1) as [Hs1|Hs1]; [|by right].
  rewrite Hs1. exact Hs.
Qed.

(** X1: however many progress events are reported, the callbacks never
    write the process field, and the status they leave is the one they
    found or ["finished"]. *)
Theorem callbacks_keep_process :
  forall events dp,
    process (snd (run_hooks events dp)) = process dp
    /\ (status (snd (run_hooks events dp)) = status dp
        \/ status (snd (run_hooks events dp)) = "finished").
Proof.
  intros events dp. split; [apply run_hooks_process|apply run_hooks_status].
Qed.

(** X2: a [downloading] event that carries no usable total (no
    [total_bytes], or a [None] or zero one, and no [total_bytes_estimate])
    is ignored: the callback returns and the record is as it was. *)
Theorem hook_ignores_event_without_total :
  forall d dp,
    d !! "status" = Some (PyStr "downloading") ->
    truthy (get d "total_bytes") = false ->
    d !! "total_bytes_estimate" = None ->
    progress_hook d dp = (Ret tt, dp).
Proof.
  intros d dp Hst Htot Hest. unfold progress_hook, getitem.
  rewrite Hst. simpl. unfold py_or, get_or. by rewrite Htot, Hest.
Qed.

Lemma hook_ignores_event_without_total_witness :
  progress_hook Example.no_total Example.busy = (Ret tt, Example.busy).
Proof.
  apply hook_ignores_event_without_total; reflexivity.
Defined.

(** X3: a [downloading] event with no usable [total_bytes] whose
    [total_bytes_estimate] key is present with [None] makes the callback
    raise a [TypeError] (the comparison [None > 0]); the record is as it
    was. *)
Theorem hook_raises_on_none_estimate :
  forall d dp,
    d !! "status" = Some (PyStr "downloading") ->
    truthy (get d "total_bytes") = false ->
    d !! "total_bytes_estimate" = Some PyNone ->
    progress_hook d dp
    = (Raise (Exn TypeError
                "'>' not supported between instances of 'NoneType' and 'int'"),
       dp).
Proof.
  intros d dp Hst Htot Hest. unfold progress_hook, getitem.
  rewrite Hst. simpl. unfold py_or, get_or. by rewrite Htot, Hest.
Qed.

Lemma hook_raises_on_none_estimate_witness :
  progress_hook Example.none_estimate Example.busy
  = (Raise (Exn TypeError
              "'>' not supported between instances of 'NoneType' and 'int'"),
     Example.busy).
Proof.
  apply hook_raises_on_none_estimate; reflexivity.
Defined.

(** ** [/cancel] after its first answer *)





(** ** [/download] and the record *)

Lemma set_process_same dp : set_process (process dp) dp = dp.
Proof. by destruct dp. Qed.

Lemma progress_hook_set_process d p dp :
  progress_hook d (set_process p dp)
  = (fst (progress_hook d dp), set_process p (snd (progress_hook d dp))).
Proof.
  unfold progress_hook.
  destruct (getitem d "status") as [st|e]; [|done].
  destruct (eq_str st "downloading").
  - destruct (py_gt _ _) as [[|]|e]; [|done|done].
    by destruct (py_div _ _) as [r|e].
  - by destruct (eq_str st "finished").
Qed.

Lemma run_hooks_set_process events p : forall dp,
  run_hooks events (set_process p dp)
  = (fst (run_hooks events dp), set_process p (snd (run_hooks events dp))).
Proof.
  induction events as [|d rest IH]; intros dp; simpl; [done|].
  rewrite progress_hook_set_process.
  destruct (progress_hook d dp) as [[u|e] dp1]; simpl; [apply IH|done].
Qed.

Lemma by_callbacks_refl dp : by_callbacks dp dp.
Proof. exists []. simpl. by rewrite set_process_same. Qed.

Lemma by_callbacks_set_process dp final p :
  by_callbacks dp final -> by_callbacks dp (set_process p final).
Proof. intros [events H]. exists events. rewrite H. reflexivity. Qed.

Lemma by_callbacks_run dp events p :
  by_callbacks dp (snd (run_hooks events (set_process p dp))).
Proof.
  exists events. rewrite run_hooks_set_process. reflexivity.
Qed.

Lemma by_callbacks_status dp final :
  by_callbacks dp final -> status final = status dp \/ status final = "finished".
Proof.
  intros [events ->]. simpl. apply run_hooks_status.
Qed.

Section DownloadFacts.

Variable FFMPEG_PATH : string.
Variable server_process : Process.
Variable mkdtemp : outcome string.
Variable path_join : string -> string -> string.
Variable splitext_root : string -> string.
Variable basename : string -> string.
Variable path_exists : string -> bool.
Variable read_file : string -> outcome (list Byte.byte).
Variable info : Type.
Variable YoutubeDL : ydl_opts -> outcome unit.
Variable extract_info : ydl_opts -> string -> list dict * outcome info.
Variable prepare_filename : ydl_opts -> info -> outcome string.

Local Abbreviation download :=
  (download_video FFMPEG_PATH server_process mkdtemp path_join splitext_root
     basename path_exists read_file info YoutubeDL extract_info prepare_filename).

Lemma download_except_by_callbacks e dp dp0 :
  by_callbacks dp dp0 -> by_callbacks dp (snd (download_except e dp0)).
Proof.
  intros H. unfold download_except.
  destruct (is_Exception e); simpl; [by apply by_callbacks_set_process|done].
Qed.

Lemma download_by_callbacks video_id quality dp :
  by_callbacks dp (snd (download video_id quality dp)).
Proof.
  pose proof (by_callbacks_refl dp) as Hdp. unfold download_video.
  destruct mkdtemp as [temp_dir|e]; [|by apply download_except_by_callbacks].
  destruct quality as [q|]; [|by apply download_except_by_callbacks].
  destruct (YoutubeDL _) as [u|e]; [|by apply download_except_by_callbacks].
  unfold download_body.
  destruct (extract_info _ _) as [events result].
  pose proof (by_callbacks_run dp events (Some server_process)) as Hrun.
  destruct (run_hooks events _) as [[u'|e] dp1]; simpl in Hrun.
  - apply (by_callbacks_set_process _ _ None) in Hrun.
    destruct result as [i|e]; [|by apply download_except_by_callbacks].
    destruct (prepare_filename _ _) as [prepared|e];
      [|by apply download_except_by_callbacks].
    destruct (negb (path_exists _)); [by apply download_except_by_callbacks|].
    destruct (read_file _) as [file_data|e];
      [done|by apply download_except_by_callbacks].
  - by apply download_except_by_callbacks, by_callbacks_set_process.
Qed.

(** X6: a download writes progress, speed, eta and status only through
    the callbacks: the record it leaves is the one some progress events
    make of the record it found, up to the process field.  In particular
    it never puts the status back to ["starting"]: the status it leaves is
    the one it found or ["finished"]. *)
Theorem download_writes_only_by_callbacks :
  forall video_id quality dp,
    let final := snd (download video_id quality dp) in
    (exists events,
        final = set_process (process final) (snd (run_hooks events dp)))
    /\ (status final = status dp \/ status final = "finished").
Proof.
  intros video_id quality dp final. subst final.
  pose proof (download_by_callbacks video_id quality dp) as H.
  split; [exact H|by apply by_callbacks_status].
Qed.

Lemma download_except_answer e dp r dp' :
  download_except e dp = (Ret r, dp') ->
  r = Some {| resp_body :=
                JsonError (str_exn e) (Some "Check server logs for more information");
              resp_code := 500 |}
  /\ process dp' = None.
Proof.
  unfold download_except. destruct (is_Exception e); intros H; by simplify_eq.
Qed.

Lemma download_return_cases video_id quality dp r dp' :
  download video_id quality dp = (Ret r, dp') ->
  process dp' = None
  /\ ((exists data name mt,
          r = Some {| resp_body := Attachment data name mt; resp_code := 200 |})
      \/ (exists msg,
            r = Some {| resp_body :=
                          JsonError msg (Some "Check server logs for more information");
                        resp_code := 500 |})).
Proof.
  assert (forall e dp0 r dp',
             download_except e dp0 = (Ret r, dp') ->
             process dp' = None
             /\ ((exists data name mt,
                     r = Some {| resp_body := Attachment data name mt;
                                 resp_code := 200 |})
                 \/ (exists msg,
                       r = Some {| resp_body :=
                                     JsonError msg
                                       (Some "Check server logs for more information");
                                   resp_code := 500 |}))) as Hexcept.
  { intros e dp0 r0 dp0' H. apply download_except_answer in H as [-> Hp].
    split; [done|]. right. by eexists. }
  unfold download_video.
  destruct mkdtemp as [temp_dir|e]; [|apply Hexcept].
  destruct quality as [q|]; [|apply Hexcept].
  destruct (YoutubeDL _) as [u|e]; [|apply Hexcept].
  unfold download_body.
  destruct (extract_info _ _) as [events result].
  destruct (run_hooks events _) as [[u'|e] dp1]; [|apply Hexcept].
  destruct result as [i|e]; [|apply Hexcept].
  destruct (prepare_filename _ _) as [prepared|e]; [|apply Hexcept].
  destruct (negb (path_exists _)); [apply Hexcept|].
  destruct (read_file _) as [file_data|e]; [|apply Hexcept].
  intros H. simplify_eq. split; [done|]. left. by eexists _, _, _.
Qed.

(** X7: when the handler returns it always returns a response (its body
    never ends without one), and the response is either an attachment with
    status 200 or the error JSON with the fixed [details] text and status
    500. *)
Theorem download_answers_200_or_500 :
  forall video_id quality dp r dp',
    download video_id quality dp = (Ret r, dp') ->
    (exists data name mt,
        r = Some {| resp_body := Attachment data name mt; resp_code := 200 |})
    \/ (exists msg,
          r = Some {| resp_body :=
                        JsonError msg (Some "Check server logs for more information");
                      resp_code := 500 |}).
Proof.
  intros video_id quality dp r dp' H.
  by apply download_return_cases in H as [_ H].
Qed.

(** X8: a request without [formatId] is answered 500 with the
    [AttributeError] text, after the temporary directory is made and
    whatever the extractor would do; the record keeps its progress, speed,
    eta and status and has no process handle. *)
Theorem download_without_format_id :
  forall video_id dp temp_dir,
    mkdtemp = Ret temp_dir ->
    download video_id None dp
    = (Ret (Some {| resp_body :=
                      JsonError "'NoneType' object has no attribute 'startswith'"
                        (Some "Check server logs for more information");
                    resp_code := 500 |}),
       set_process None dp).
Proof. intros video_id dp temp_dir H. unfold download_video. by rewrite H. Qed.

(** X9: when the extractor and the callbacks succeed but the expected
    file is not there, the answer is 500 and names the file looked for:
    the prepared name with its extension replaced by [.mp3] on the audio
    path, the prepared name itself on the video path. *)
Theorem download_file_not_found :
  forall video_id q dp temp_dir events i prepared,
    let opts := build_opts FFMPEG_PATH (path_join temp_dir "%(title)s.%(ext)s") q in
    let url := "https://www.youtube.com/watch?v=" +:+ str_opt video_id in
    let filename :=
      if is_audio q then splitext_root prepared +:+ ".mp3" else prepared in
    mkdtemp = Ret temp_dir ->
    YoutubeDL opts = Ret tt ->
    extract_info opts url = (events, Ret i) ->
    fst (run_hooks events (set_process (Some server_process) dp)) = Ret tt ->
    prepare_filename opts i = Ret prepared ->
    path_exists filename = false ->
    fst (download video_id (Some q) dp)
    = Ret (Some {| resp_body :=
                     JsonError ("Downloaded file not found: " +:+ filename)
                       (Some "Check server logs for more information");
                   resp_code := 500 |}).
Proof.
  intros video_id q dp temp_dir events i prepared opts url filename
    Hmk Hy He Hh Hp Hx.
  subst opts url filename. unfold download_video, download_body.
  rewrite Hmk, Hy, He.
  destruct (run_hooks events _) as [[u|e] dp1]; simpl in Hh; [|done].
  by rewrite Hp, Hx.
Qed.

(** X10: once a download has returned there is nothing left to cancel: a
    cancel on the record it leaves kills nothing, changes nothing and ends
    without a response. *)
Theorem cancel_after_download :
  forall kill_tree video_id quality dp r dp',
    download video_id quality dp = (Ret r, dp') ->
    cancel_download kill_tree dp' = (Ret None, dp').
Proof.
  intros kill_tree video_id quality dp r dp' H.
  apply download_return_cases in H as [Hp _].
  unfold cancel_download. by rewrite Hp.
Qed.

End DownloadFacts.

Lemma download_answers_200_or_500_witness :
  (exists data name mt,
      Some {| resp_body :=
                JsonError "Downloaded file not found: /tmp/dl/clip.mp3"
                  (Some "Check server logs for more information");
              resp_code := 500 |}
      = Some {| resp_body := Attachment data name mt; resp_code := 200 |})
  \/ (exists msg,
        Some {| resp_body :=
                  JsonError "Downloaded file not found: /tmp/dl/clip.mp3"
                    (Some "Check server logs for more information");
                resp_code := 500 |}
        = Some {| resp_body :=
                    JsonError msg (Some "Check server logs for more information");
                  resp_code := 500 |}).
Proof.
  apply (download_answers_200_or_500
           "bin/ffmpeg.exe" Sample.server_process (Ret "/tmp/dl") Sample.path_join
           Sample.splitext_root Sample.basename (fun _ => false)
           (fun _ => Ret Sample.file_data) unit (fun _ => Ret tt)
           Sample.extract_ok (fun _ _ => Ret "/tmp/dl/clip.webm")
           (Some "abc") (Some "audio_140") init _
           (snd (Example.download_no_file (Some "abc") (Some "audio_140") init))).
  vm_compute. reflexivity.
Defined.

Lemma download_without_format_id_witness :
  Sample.download Sample.extract_ok (Some "abc") None Example.busy
  = (Ret (Some {| resp_body :=
                    JsonError "'NoneType' object has no attribute 'startswith'"
                      (Some "Check server logs for more information");
                  resp_code := 500 |}),
     set_process None Example.busy).
Proof.
  exact (download_without_format_id
           "bin/ffmpeg.exe" Sample.server_process (Ret "/tmp/dl") Sample.path_join
           Sample.splitext_root Sample.basename (fun _ => true)
           (fun _ => Ret Sample.file_data) unit (fun _ => Ret tt)
           Sample.extract_ok (fun _ _ => Ret "/tmp/dl/clip.webm")
           (Some "abc") Example.busy "/tmp/dl" eq_refl).
Defined.

Lemma download_file_not_found_witness :
  fst (Example.download_no_file (Some "abc") (Some "audio_140") init)
  = Ret (Some {| resp_body :=
                   JsonError "Downloaded file not found: /tmp/dl/clip.mp3"
                     (Some "Check server logs for more information");
                 resp_code := 500 |})
  /\ fst (Example.download_no_file (Some "abc") (Some "720p") init)
     = Ret (Some {| resp_body :=
                      JsonError "Downloaded file not found: /tmp/dl/clip.webm"
                        (Some "Check server logs for more information");
                    resp_code := 500 |}).
Proof.
  pose (notfound := download_file_not_found
          "bin/ffmpeg.exe" Sample.server_process (Ret "/tmp/dl") Sample.path_join
          Sample.splitext_root Sample.basename (fun _ => false)
          (fun _ => Ret Sample.file_data) unit (fun _ => Ret tt)
          Sample.extract_ok (fun _ _ => Ret "/tmp/dl/clip.webm") (Some "abc")).
  split.
  - exact (notfound "audio_140" init "/tmp/dl" Sample.events tt "/tmp/dl/clip.webm"
             eq_refl eq_refl eq_refl eq_refl eq_refl eq_refl).
  - exact (notfound "720p" init "/tmp/dl" Sample.events tt "/tmp/dl/clip.webm"
             eq_refl eq_refl eq_refl eq_refl eq_refl eq_refl).
Defined.

Lemma cancel_after_download_witness :
  let left_behind :=
    snd (Sample.download Sample.extract_ok (Some "abc") (Some "audio_140") Example.busy) in
  cancel_download Example.kill_ok left_behind = (Ret None, left_behind).
Proof.
  apply (cancel_after_download
           "bin/ffmpeg.exe" Sample.server_process (Ret "/tmp/dl") Sample.path_join
           Sample.splitext_root Sample.basename (fun _ => true)
           (fun _ => Ret Sample.file_data) unit (fun _ => Ret tt)
           Sample.extract_ok (fun _ _ => Ret "/tmp/dl/clip.webm")
           Example.kill_ok (Some "abc") (Some "audio_140") Example.busy
           (Some {| resp_body := Attachment Sample.file_data "clip.mp3" "audio/mp3";
                    resp_code := 200 |})).
  vm_compute. reflexivity.
Defined.

(** ** [/formats]: what the first loop stores *)


(** Everything the loop raises is a [TypeError]. *)
Lemma collect_step_raises st f e :
  collect_step st f = Raise e -> exn_cls e = TypeError.
Proof.
  destruct st as [format_info audio_formats]. unfold collect_step.
  destruct (is_video_only f).
  - destruct (fget_or (height f) 0) as [h|]; [|intros H; by simplify_eq].
    destruct (0 <? h); [|done].
    destruct (format_info !! h) as [kept|]; [|done].
    unfold gt_opt.
    destruct (fget_or (filesize f) 0), (vi_filesize kept); simpl;
      try (intros H; by simplify_eq).
    by destruct (_ <? _).
  - destruct (is_audio_only f); [|done].
    destruct (fget (abr f)) as [q|]; [|done].
    destruct (Qeq_bool q 0); [done|].
    destruct (fget_or (protocol f) "") as [proto|]; [|intros H; by simplify_eq].
    by destruct (_ || _).
Qed.

Lemma collect_raises formats : forall st e,
  collect formats st = Raise e -> exn_cls e = TypeError.
Proof.
  induction formats as [|f rest IH]; intros st e; simpl; [done|].
  destruct (collect_step st f) as [st1|e1] eqn:Hstep; simpl.
  - apply IH.
  - intros H. simplify_eq. by eapply collect_step_raises.
Qed.

(** Formats that are neither video only nor audio only are passed over. *)
Lemma collect_step_other st f :
  is_video_only f = false -> is_audio_only f = false ->
  collect_step st f = Ret st.
Proof.
  intros Hv Ha. destruct st as [format_info audio_formats].
  unfold collect_step. by rewrite Hv, Ha.
Qed.

Lemma collect_filter formats : forall st,
  collect (filter (fun f => is_video_only f || is_audio_only f) formats) st
  = collect formats st.
Proof.
  induction formats as [|f rest IH]; intros st; [done|].
  destruct (is_video_only f || is_audio_only f) eqn:Hf.
  - rewrite filter_cons_True by (by rewrite Hf). simpl.
    destruct (collect_step st f) as [st1|e]; simpl; [apply IH|done].
  - rewrite filter_cons_False by (rewrite Hf; exact (fun x => x)). simpl.
    apply orb_false_elim in Hf as [Hv Ha].
    rewrite collect_step_other by done. simpl. apply IH.
Qed.

(** X11: formats that carry both a video and an audio codec, or neither,
    have no influence on the answer: leaving them out of the list gives
    the same answer. *)
Theorem get_formats_ignores_muxed :
  forall video_id formats,
    get_formats video_id
      (Ret (Val (filter (fun f => is_video_only f || is_audio_only f) formats)))
    = get_formats video_id (Ret (Val formats)).
Proof.
  intros video_id formats. unfold get_formats.
  destruct video_id as [[|c vid]|]; [done| |done]. simpl.
  by rewrite collect_filter.
Qed.






(** ** [/formats]: where the audio entries come from *)

Lemma stored_audio_snoc seen f a :
  stored_audio seen a -> stored_audio (seen ++ [f]) a.
Proof.
  intros (g & Hg & Hd & Ha). exists g. split; [|done].
  apply elem_of_app. by left.
Qed.

Lemma collect_step_stored seen format_info audio_formats f st' :
  Forall (stored_audio seen) audio_formats ->
  collect_step (format_info, audio_formats) f = Ret st' ->
  Forall (stored_audio (seen ++ [f])) (snd st').
Proof.
  intros Hau.
  assert (Forall (stored_audio (seen ++ [f])) audio_formats) as Hkeep.
  { eapply Forall_impl; [exact Hau|]. intros a. apply stored_audio_snoc. }
  unfold collect_step.
  destruct (is_video_only f) eqn:Hv.
  - destruct (fget_or (height f) 0) as [h|]; [|done].
    destruct (0 <? h); [|intros H; by simplify_eq].
    destruct (format_info !! h) as [kept|]; [|intros H; by simplify_eq].
    destruct (gt_opt _ _) as [[|]|e]; simpl; intros H; by simplify_eq.
  - destruct (is_audio_only f) eqn:Ha; [|intros H; by simplify_eq].
    destruct (fget (abr f)) as [q|] eqn:Hq; [|intros H; by simplify_eq].
    destruct (Qeq_bool q 0) eqn:Hz; [intros H; by simplify_eq|].
    destruct (fget_or (protocol f) "") as [proto|] eqn:Hp; [|done].
    destruct (_ || _) eqn:Hdash; intros H; simplify_eq; simpl; [done|].
    apply Forall_app. split; [done|].
    constructor; [|constructor].
    exists f. split; [apply elem_of_app; right; by apply list_elem_of_singleton|].
    split; [|done]. simpl. repeat split; try done. by exists proto.
Qed.

Lemma collect_stored formats : forall seen st st',
  Forall (stored_audio seen) (snd st) ->
  collect formats st = Ret st' ->
  Forall (stored_audio (seen ++ formats)) (snd st').
Proof.
  induction formats as [|f rest IH]; intros seen st st' Hau; simpl.
  - intros H. simplify_eq. by rewrite app_nil_r.
  - destruct st as [format_info audio_formats].
    destruct (collect_step (format_info, audio_formats) f) as [st1|e] eqn:Hstep;
      [|done].
    simpl. intros Hrest.
    replace (seen ++ f :: rest) with ((seen ++ [f]) ++ rest)
      by (by rewrite <- app_assoc).
    eapply IH; [|exact Hrest].
    eapply collect_step_stored; [exact Hau|exact Hstep].
Qed.

Lemma audio_step_entries st audio :
  exists extra,
    snd (audio_step st audio) = snd st ++ extra
    /\ Forall (audio_entry_of audio) extra.
Proof.
  destruct st as [added options]. unfold audio_step, audio_entry_of.
  destruct (Qle_bool 256 (au_abr audio)) eqn:H256;
    destruct (Qle_bool 128 (au_abr audio)) eqn:H128;
    repeat case_bool_decide; simpl;
    first [ by (exists []; split; [by rewrite app_nil_r|constructor])
          | by (eexists [_]; split; [done|];
                constructor; [|constructor]; eexists; split; [done|]; auto) ].
Qed.

Lemma audio_fold_entries l : forall st,
  exists extra,
    snd (fold_left audio_step l st) = snd st ++ extra
    /\ Forall (fun o => exists a, a ∈ l /\ audio_entry_of a o) extra.
Proof.
  induction l as [|audio l IH]; intros st; simpl.
  - exists []. split; [by rewrite app_nil_r|constructor].
  - destruct (IH (audio_step st audio)) as (extra2 & -> & H2).
    destruct (audio_step_entries st audio) as (extra1 & -> & H1).
    exists (extra1 ++ extra2). split; [by rewrite app_assoc|].
    apply Forall_app. split.
    + eapply Forall_impl; [exact H1|]. intros o Ho. exists audio.
      split; [by left|done].
    + eapply Forall_impl; [exact H2|]. intros o (a & Ha & Ho). exists a.
      split; [by right|done].
Qed.

Lemma audio_entry_type a o : audio_entry_of a o -> type o = "audio".
Proof. by intros (lbl & -> & _). Qed.

(** The answer in two parts: the video entries, then the audio entries,
    each built for a stored audio format. *)
Lemma answer_parts video_id formats options code :
  get_formats video_id (Ret (Val formats))
  = Ret {| resp_body := JsonFormats options; resp_code := code |} ->
  exists format_info audios,
    options = video_options format_info ++ audios
    /\ collected formats format_info
    /\ Forall (fun o => exists a, stored_audio formats a /\ audio_entry_of a o) audios.
Proof.
  unfold get_formats.
  destruct video_id as [[|c vid]|]; [done| |done]. simpl.
  destruct (collect formats (∅, [])) as [[format_info audio_formats]|e] eqn:Hc;
    [|destruct (is_Exception e); done].
  intros H. simplify_eq.
  pose proof (collect_collected formats [] (∅, []) _ collected_empty Hc) as Hcol.
  pose proof (collect_stored formats [] (∅, []) _ (Forall_nil_2 _) Hc) as Hst.
  simpl in Hcol, Hst.
  unfold audio_options.
  destruct (audio_fold_entries (sort_desc abr_geb audio_formats)
              (∅, video_options format_info)) as (extra & -> & Hextra).
  exists format_info, extra. simpl. split; [done|]. split; [done|].
  eapply Forall_impl; [exact Hextra|].
  intros o (a & Ha & Ho). exists a. split; [|done].
  rewrite sort_desc_perm in Ha.
  rewrite Forall_forall in Hst. by apply Hst.
Qed.

Lemma answer_audio_entry video_id formats options code o :
  get_formats video_id (Ret (Val formats))
  = Ret {| resp_body := JsonFormats options; resp_code := code |} ->
  o ∈ options -> type o = "audio" ->
  exists a, stored_audio formats a /\ audio_entry_of a o.
Proof.
  intros H Ho Ht.
  destruct (answer_parts _ _ _ _ H) as (format_info & audios & -> & _ & Haud).
  apply elem_of_app in Ho as [Ho|Ho].
  - pose proof (video_options_type format_info) as Hv.
    rewrite Forall_forall in Hv. specialize (Hv o Ho). congruence.
  - rewrite Forall_forall in Haud. by apply Haud.
Qed.

(** X14: every audio entry of an answer is built for an audio-only
    format of the list whose bitrate is not zero and whose protocol
    contains neither [dash] nor [http_dash_segments]; an entry labelled
    High Quality has a bitrate of at least 256, one labelled Medium
    Quality of at least 128. *)
Theorem audio_entries_come_from_downloadable :
  forall video_id formats options code o,
    get_formats video_id (Ret (Val formats))
    = Ret {| resp_body := JsonFormats options; resp_code := code |} ->
    o ∈ options -> type o = "audio" ->
    exists f q quality_label,
      f ∈ formats /\ downloadable_audio f q
      /\ o = audio_option (audio_of f q) quality_label
      /\ (quality_label = "High Quality" /\ Qle_bool 256 q = true
          \/ quality_label = "Medium Quality" /\ Qle_bool 128 q = true
          \/ quality_label = "Low Quality").
Proof.
  intros video_id formats options code o H Ho Ht.
  destruct (answer_audio_entry _ _ _ _ _ H Ho Ht)
    as (a & (f & Hf & Hd & Ha) & (lbl & -> & Hl)).
  exists f, (au_abr a), lbl. by rewrite <- Ha.
Qed.

Lemma audio_entries_come_from_downloadable_witness :
  exists f q quality_label,
    f ∈ Sample.formats /\ downloadable_audio f q
    /\ {| formatId := "audio_251"; extension := "mp3"; quality := "160kbps";
          label := "Audio - Medium Quality (160kbps)"; codec := Some "opus";
          type := "audio" |}
       = audio_option (audio_of f q) quality_label
    /\ (quality_label = "High Quality" /\ Qle_bool 256 q = true
        \/ quality_label = "Medium Quality" /\ Qle_bool 128 q = true
        \/ quality_label = "Low Quality").
Proof.
  apply (audio_entries_come_from_downloadable (Some "abc") Sample.formats
           Sample.options 200).
  - vm_compute. reflexivity.
  - apply list_elem_of_lookup. by exists 2%nat.
  - reflexivity.
Defined.

(** ** [/formats]: the shape of the answer *)

Lemma descending_NoDup (hs : list Z) :
  StronglySorted (fun a b => b < a) hs -> NoDup hs.
Proof.
  induction 1 as [|h l _ IH Hh]; constructor; [|done].
  intros Hin. rewrite Forall_forall in Hh. specialize (Hh h Hin). lia.
Qed.

Lemma video_options_at_most_five format_info :
  (length (video_options format_info) <= 5)%nat.
Proof.
  destruct (video_options_descending format_info) as (hs & Hf & Hs).
  rewrite (Forall2_length _ _ _ Hf).
  change 5%nat with (length [2160; 1440; 1080; 720; 480]).
  apply submseteq_length, NoDup_submseteq; [by apply descending_NoDup|].
  intros h Hh. apply list_elem_of_lookup in Hh as [i Hi].
  destruct (Forall2_lookup_r _ _ _ _ _ Hf Hi) as (o & _ & idl & kept & Hr & _).
  by eapply resolution_map_tiers.
Qed.

(** X15: an answer lists the video entries first and the audio entries
    after them, at most five video entries and at most three audio
    entries. *)
Theorem answer_layout :
  forall video_id formats options code,
    get_formats video_id (Ret (Val formats))
    = Ret {| resp_body := JsonFormats options; resp_code := code |} ->
    exists videos audios,
      options = videos ++ audios
      /\ Forall (fun o => type o = "video") videos
      /\ Forall (fun o => type o = "audio") audios
      /\ (length videos <= 5)%nat /\ (length audios <= 3)%nat.
Proof.
  intros video_id formats options code. unfold get_formats.
  destruct video_id as [[|c vid]|]; [done| |done]. simpl.
  destruct (collect formats (∅, [])) as [[format_info audio_formats]|e] eqn:Hc;
    [|destruct (is_Exception e); done].
  intros H. simplify_eq.
  pose proof (audio_options_at_most_three audio_formats (video_options format_info))
    as Hthree.
  unfold audio_options in *.
  destruct (audio_fold_appends (sort_desc abr_geb audio_formats)
              (∅, video_options format_info)) as (extra & Heq & Hextra).
  rewrite Heq in *. simpl in *.
  exists (video_options format_info), extra.
  split; [done|]. split; [apply video_options_type|]. split; [done|].
  split; [apply video_options_at_most_five|].
  rewrite length_app in Hthree. lia.
Qed.

Lemma answer_layout_witness :
  exists videos audios,
    Sample.options = videos ++ audios
    /\ Forall (fun o => type o = "video") videos
    /\ Forall (fun o => type o = "audio") audios
    /\ (length videos <= 5)%nat /\ (length audios <= 3)%nat.
Proof.
  apply (answer_layout (Some "abc") Sample.formats Sample.options 200).
  vm_compute. reflexivity.
Defined.

(** X16: with the extraction done the handler always answers, and only
    in two ways: 200 with the list of entries, or 400 with an error text;
    no failure of its own loops escapes it. *)
Theorem get_formats_answers_200_or_400 :
  forall video_id (fmts : field (list format)),
    exists r,
      get_formats video_id (Ret fmts) = Ret r
      /\ ((resp_code r = 200 /\ exists options, resp_body r = JsonFormats options)
          \/ (resp_code r = 400 /\ exists msg, resp_body r = JsonError msg None)).
Proof.
  intros video_id fmts. unfold get_formats.
  destruct video_id as [[|c vid]|];
    [eexists; split; [done|]; right; by eauto| |
     eexists; split; [done|]; right; by eauto].
  destruct fmts as [| |formats]; simpl.
  - eexists. split; [done|]. left. by eauto.
  - eexists. split; [done|]. right. by eauto.
  - destruct (collect formats (∅, [])) as [[format_info audio_formats]|e] eqn:Hc.
    + eexists. split; [done|]. left. by eauto.
    + unfold is_Exception. rewrite (collect_raises _ _ _ Hc).
      eexists. split; [done|]. right. by eauto.
Qed.

(** ** [/formats]: the best audio stream *)

Lemma abr_geb_total x y : abr_geb x y = false -> abr_geb y x = true.
Proof.
  unfold abr_geb. intros H. apply Qle_bool_iff.
  destruct (Qlt_le_dec (au_abr x) (au_abr y)) as [Hlt|Hle].
  - by apply Qlt_le_weak.
  - apply Qle_bool_iff in Hle. congruence.
Qed.

Lemma abr_geb_trans x y z :
  abr_geb x y = true -> abr_geb y z = true -> abr_geb x z = true.
Proof.
  unfold abr_geb. rewrite !Qle_bool_iff. intros Hxy Hyz. by eapply Qle_trans.
Qed.

Lemma sort_desc_head_max (l : list audio_info) a0 rest a :
  sort_desc abr_geb l = a0 :: rest -> a ∈ l -> abr_geb a0 a = true.
Proof.
  intros Hsorted Ha.
  pose proof (sort_desc_sorted abr_geb abr_geb_total abr_geb_trans l) as Hs.
  rewrite <- (sort_desc_perm abr_geb l), Hsorted in Ha. rewrite Hsorted in Hs.
  apply StronglySorted_inv in Hs as [_ Hall].
  apply elem_of_cons in Ha as [->|Ha].
  - destruct (abr_geb a0 a0) eqn:H; [done|].
    pose proof (abr_geb_total _ _ H). congruence.
  - rewrite Forall_forall in Hall. by apply Hall.
Qed.

Lemma collect_step_grows st f st' :
  collect_step st f = Ret st' -> exists extra, snd st' = snd st ++ extra.
Proof.
  destruct st as [format_info audio_formats]. unfold collect_step.
  assert (exists extra : list audio_info, audio_formats = audio_formats ++ extra)
    as Hsame by (exists []; by rewrite app_nil_r).
  destruct (is_video_only f).
  - destruct (fget_or (height f) 0) as [h|]; [|done].
    destruct (0 <? h); [|intros H; by simplify_eq].
    destruct (format_info !! h) as [kept|]; [|intros H; by simplify_eq].
    destruct (gt_opt _ _) as [[|]|e]; simpl; intros H; by simplify_eq.
  - destruct (is_audio_only f); [|intros H; by simplify_eq].
    destruct (fget (abr f)) as [q|]; [|intros H; by simplify_eq].
    destruct (Qeq_bool q 0); [intros H; by simplify_eq|].
    destruct (fget_or (protocol f) "") as [proto|]; [|done].
    destruct (_ || _); intros H; simplify_eq; simpl; [done|by eexists].
Qed.

Lemma collect_grows formats : forall st st',
  collect formats st = Ret st' -> exists extra, snd st' = snd st ++ extra.
Proof.
  induction formats as [|f rest IH]; intros st st'; simpl.
  - intros H. simplify_eq. exists []. by rewrite app_nil_r.
  - destruct (collect_step st f) as [st1|e] eqn:Hstep; [|done]. simpl.
    intros Hrest.
    destruct (collect_step_grows _ _ _ Hstep) as [extra1 H1].
    destruct (IH _ _ Hrest) as [extra2 H2].
    exists (extra1 ++ extra2). by rewrite H2, H1, app_assoc.
Qed.

Lemma collect_step_downloadable format_info audio_formats f q :
  downloadable_audio f q ->
  collect_step (format_info, audio_formats) f
  = Ret (format_info, audio_formats ++ [audio_of f q]).
Proof.
  intros (Hv & Ha & Hq & Hz & proto & Hp & Hdash).
  unfold collect_step. by rewrite Hv, Ha, Hq, Hz, Hp, Hdash.
Qed.

Lemma collect_keeps_downloadable formats f q :
  f ∈ formats -> downloadable_audio f q ->
  forall st st', collect formats st = Ret st' -> audio_of f q ∈ snd st'.
Proof.
  intros Hin Hd.
  induction formats as [|g rest IH]; [by apply elem_of_nil in Hin|].
  intros st st'. simpl.
  apply elem_of_cons in Hin as [<-|Hin].
  - destruct st as [format_info audio_formats].
    rewrite (collect_step_downloadable _ _ _ _ Hd). simpl. intros Hrest.
    destruct (collect_grows _ _ _ Hrest) as [extra ->]. simpl.
    apply elem_of_app. left. apply elem_of_app. right.
    by apply list_elem_of_singleton.
  - destruct (collect_step st g) as [st1|e]; [|done]. simpl. by apply IH.
Qed.

Lemma audio_step_first format_options a :
  exists added o,
    audio_step (∅, format_options) a = (added, format_options ++ [o])
    /\ audio_entry_of a o.
Proof.
  unfold audio_step, audio_entry_of.
  destruct (Qle_bool 256 (au_abr a)) eqn:H256;
    destruct (Qle_bool 128 (au_abr a)) eqn:H128;
    repeat case_bool_decide; simpl;
    try match goal with
        | H : _ ∈ ∅ |- _ => destruct (not_elem_of_empty (C := gset string) _ H)
        end;
    (eexists _, _; split; [done|]; eexists; split; [done|]; auto).
Qed.

(** X17: when the list holds a downloadable audio format, an answer has
    an audio entry, and the first entry after the video entries is built
    for a downloadable audio format whose bitrate none of the others
    exceeds. *)
Theorem best_audio_first :
  forall video_id formats options code f q,
    get_formats video_id (Ret (Val formats))
    = Ret {| resp_body := JsonFormats options; resp_code := code |} ->
    f ∈ formats -> downloadable_audio f q ->
    exists videos o rest f0 q0 quality_label,
      options = videos ++ o :: rest
      /\ Forall (fun v => type v = "video") videos
      /\ f0 ∈ formats /\ downloadable_audio f0 q0
      /\ o = audio_option (audio_of f0 q0) quality_label
      /\ forall f' q', f' ∈ formats -> downloadable_audio f' q' -> (q' <= q0)%Q.
Proof.
  intros video_id formats options code f q. unfold get_formats.
  destruct video_id as [[|c vid]|]; [done| |done]. simpl.
  destruct (collect formats (∅, [])) as [[format_info audio_formats]|e] eqn:Hc;
    [|destruct (is_Exception e); done].
  intros H Hf Hd. simplify_eq.
  pose proof (collect_stored formats [] (∅, []) _ (Forall_nil_2 _) Hc) as Hst.
  simpl in Hst. rewrite Forall_forall in Hst.
  pose proof (collect_keeps_downloadable formats f q Hf Hd _ _ Hc) as Hin.
  simpl in Hin.
  destruct (sort_desc abr_geb audio_formats) as [|a0 tl] eqn:Hsorted.
  { rewrite <- (sort_desc_perm abr_geb audio_formats), Hsorted in Hin.
    by apply elem_of_nil in Hin. }
  assert (a0 ∈ audio_formats) as Ha0.
  { rewrite <- (sort_desc_perm abr_geb audio_formats), Hsorted. by left. }
  destruct (Hst a0 Ha0) as (f0 & Hf0 & Hd0 & Heq0).
  unfold audio_options. rewrite Hsorted. cbn [fold_left].
  destruct (audio_step_first (video_options format_info) a0)
    as (added & o & -> & (lbl & -> & _)).
  destruct (audio_fold_appends tl (added, video_options format_info
                                            ++ [audio_option a0 lbl]))
    as (extra & -> & _).
  simpl.
  exists (video_options format_info), (audio_option a0 lbl), extra,
    f0, (au_abr a0), lbl.
  split; [by rewrite <- app_assoc|].
  split; [apply video_options_type|].
  split; [done|]. split; [done|]. split; [by rewrite <- Heq0|].
  intros f' q' Hf' Hd'.
  pose proof (collect_keeps_downloadable formats f' q' Hf' Hd' _ _ Hc) as Hin'.
  simpl in Hin'.
  pose proof (sort_desc_head_max _ _ _ _ Hsorted Hin') as Hmax.
  unfold abr_geb in Hmax. simpl in Hmax. by apply Qle_bool_iff in Hmax.
Qed.

Lemma best_audio_first_witness :
  exists videos o rest f0 q0 quality_label,
    Sample.options = videos ++ o :: rest
    /\ Forall (fun v => type v = "video") videos
    /\ f0 ∈ Sample.formats /\ downloadable_audio f0 q0
    /\ o = audio_option (audio_of f0 q0) quality_label
    /\ forall f' q', f' ∈ Sample.formats -> downloadable_audio f' q' -> (q' <= q0)%Q.
Proof.
  apply (best_audio_first (Some "abc") Sample.formats Sample.options 200
           (Sample.audio "251" (160 # 1)) (160 # 1)).
  - vm_compute. reflexivity.
  - apply list_elem_of_lookup. by exists 4%nat.
  - repeat split; try reflexivity. exists "https". by split.
Defined.

(** ** From [/formats] to [/download] *)




Lemma resolution_ids_in_format_map h idl :
  resolution_map !! h = Some idl ->
  is_audio (fst idl) = false /\ is_Some (format_map !! fst idl).
Proof.
  intros H. apply elem_of_list_to_map_2 in H.
  repeat (apply elem_of_cons in H as [H|H]; [simplify_eq; by split|]).
  by apply elem_of_nil in H.
Qed.



(** X19: the [formatId] of every video entry of an answer is a key of
    the format table of [/download]: handed back, it takes the video path
    with the format string of its own resolution, never the fallback for
    unknown selectors. *)
Theorem video_entry_selects_its_format :
  forall FFMPEG_PATH tmpl video_id formats options code o,
    get_formats video_id (Ret (Val formats))
    = Ret {| resp_body := JsonFormats options; resp_code := code |} ->
    o ∈ options -> type o = "video" ->
    is_audio (formatId o) = false
    /\ exists fmt,
         format_map !! formatId o = Some fmt
         /\ opt_format (build_opts FFMPEG_PATH tmpl (formatId o)) = fmt.
Proof.
  intros FFMPEG_PATH tmpl video_id formats options code o H Ho Ht.
  destruct (answer_parts _ _ _ _ H) as (format_info & audios & -> & _ & Haud).
  apply elem_of_app in Ho as [Ho|Ho].
  - destruct (video_options_descending format_info) as (hs & Hf & _).
    apply list_elem_of_lookup in Ho as [i Hi].
    destruct (Forall2_lookup_l _ _ _ _ _ Hf Hi) as (h & _ & idl & kept & Hr & _ & ->).
    destruct (resolution_ids_in_format_map h idl Hr) as [Hna [fmt Hfmt]].
    simpl. split; [done|]. exists fmt. split; [done|].
    unfold build_opts. simpl. by rewrite Hna, Hfmt.
  - rewrite Forall_forall in Haud. destruct (Haud o Ho) as (a & _ & He).
    apply audio_entry_type in He. congruence.
Qed.

Lemma video_entry_selects_its_format_witness :
  let o := {| formatId := "4k"; extension := "mp4"; quality := "2160p";
              label := "4K (2160p)"; codec := Some "avc1.313"; type := "video" |} in
  is_audio (formatId o) = false
  /\ exists fmt,
       format_map !! formatId o = Some fmt
       /\ opt_format (build_opts "bin/ffmpeg.exe" "out" (formatId o)) = fmt.
Proof.
  apply (video_entry_selects_its_format "bin/ffmpeg.exe" "out" (Some "abc")
           Sample.formats Sample.options 200).
  - vm_compute. reflexivity.
  - apply list_elem_of_lookup. by exists 0%nat.
  - reflexivity.
Defined.

(** ** [/get-transcript]: time stamps and errors *)





(** X21: when all three lookups raise, the error answered (400) is the
    one of the last lookup, the auto-generated Hindi transcript, not the
    one for the requested language; what the first two raised is
    dropped. *)
Theorem get_transcript_reports_hindi_lookup :
  forall vid language_arg tl e1 e2 e3,
    vid <> "" ->
    let lang := default "en" language_arg in
    find_transcript tl [lang] = Raise e1 ->
    find_generated_transcript tl [lang] = Raise e2 ->
    find_generated_transcript tl ["hi"] = Raise e3 ->
    is_Exception e3 = true ->
    get_transcript (Some vid) language_arg (Ret tl)
    = Ret {| resp_body := JsonError (str_exn e3) None; resp_code := 400 |}.
Proof.
  intros vid language_arg tl e1 e2 e3 Hv lang H1 H2 H3 Hc.
  unfold get_transcript, choose_transcript. fold lang.
  destruct vid as [|c vid]; [done|].
  rewrite H1, H2, H3. simpl. by rewrite Hc.
Qed.

Lemma get_transcript_reports_hindi_lookup_witness :
  get_transcript (Some "abc") (Some "fr") (Ret Example.nothing)
  = Ret {| resp_body := JsonError "No generated transcript found for hi" None;
           resp_code := 400 |}.
Proof.
  exact (get_transcript_reports_hindi_lookup "abc" (Some "fr") Example.nothing
           _ _ (Exn OtherException "No generated transcript found for hi")
           ltac:(discriminate) eq_refl eq_refl eq_refl eq_refl).
Defined.

(** X22: whatever the transcript service does, an answer of the handler
    is either 200 with the transcript or 400 with an error text. *)
Theorem get_transcript_answers_200_or_400 :
  forall video_id language_arg listed r,
    get_transcript video_id language_arg listed = Ret r ->
    (resp_code r = 200
     /\ exists transcript lang generated,
          resp_body r = JsonTranscript transcript lang generated)
    \/ (resp_code r = 400 /\ exists msg, resp_body r = JsonError msg None).
Proof.
  intros video_id language_arg listed r. unfold get_transcript.
  assert (forall e,
             (if is_Exception e
              then Ret (jsonify_code (JsonError (str_exn e) None) 400)
              else Raise e) = Ret r ->
             (resp_code r = 200
              /\ exists transcript lang generated,
                   resp_body r = JsonTranscript transcript lang generated)
             \/ (resp_code r = 400 /\ exists msg, resp_body r = JsonError msg None))
    as Hexcept.
  { intros e. destruct (is_Exception e); intros H; simplify_eq.
    right. split; [done|]. by eexists. }
  destruct video_id as [[|c vid]|];
    [intros H; simplify_eq; right; split; [done|by eexists]| |
     intros H; simplify_eq; right; split; [done|by eexists]].
  destruct listed as [tl|e]; [|apply Hexcept].
  destruct (choose_transcript _ _) as [t|e]; [|apply Hexcept].
  destruct (fetch t) as [es|e]; [|apply Hexcept].
  intros H. simplify_eq. left. split; [done|]. by eexists _, _, _.
Qed.

Lemma get_transcript_answers_200_or_400_witness :
  let r := {| resp_body := JsonError "No generated transcript found for hi" None;
              resp_code := 400 |} in
  (resp_code r = 200
   /\ exists transcript lang generated,
        resp_body r = JsonTranscript transcript lang generated)
  \/ (resp_code r = 400 /\ exists msg, resp_body r = JsonError msg None).
Proof.
  apply (get_transcript_answers_200_or_400 (Some "abc") (Some "fr")
           (Ret Example.nothing)).
  reflexivity.
Defined.

(** ** [/check-transcript] and [/get-transcript-languages] *)

(** X23: a check always answers with status 200, and says
    [hasTranscript: true] exactly when a video id is given and listing the
    transcripts does not raise; in every other case it says [false] and
    carries an error text. *)
Theorem check_transcript_always_200 :
  forall (L : Type) video_id (listed : outcome L) r,
    check_transcript video_id listed = Ret r ->
    reply_code r = 200
    /\ ((reply_body r = JsonHasTranscript true None
         /\ ~ missing video_id /\ exists l, listed = Ret l)
        \/ (exists msg, reply_body r = JsonHasTranscript false (Some msg)
            /\ (missing video_id \/ exists e, listed = Raise e))).
Proof.
  intros L video_id listed r. unfold check_transcript, missing.
  destruct video_id as [[|c vid]|].
  - intros H. simplify_eq. split; [done|]. right. eexists. split; [done|]. auto.
  - destruct listed as [l|e].
    + intros H. simplify_eq. split; [done|]. left.
      split; [done|]. split; [|by eexists]. intros [?|?]; done.
    + destruct (is_Exception e); intros H; simplify_eq.
      split; [done|]. right. eexists. split; [done|]. right. by eexists.
  - intros H. simplify_eq. split; [done|]. right. eexists. split; [done|]. auto.
Qed.

Lemma check_transcript_always_200_witness :
  let r := {| reply_body := JsonHasTranscript true None; reply_code := 200 |} in
  reply_code r = 200
  /\ ((reply_body r = JsonHasTranscript true None
       /\ ~ missing (Some "abc") /\ exists l, Ret Example.nothing = Ret l)
      \/ (exists msg, reply_body r = JsonHasTranscript false (Some msg)
          /\ (missing (Some "abc") \/ exists e, Ret Example.nothing = Raise e))).
Proof.
  apply (check_transcript_always_200 TranscriptList (Some "abc")
           (Ret Example.nothing)).
  reflexivity.
Defined.

(** X24: whenever [/get-transcript] answers 200 for a video, the check
    for that video on the same listing says [hasTranscript: true]. *)
Theorem check_agrees_with_get_transcript :
  forall video_id language_arg listed r,
    get_transcript video_id language_arg listed = Ret r ->
    resp_code r = 200 ->
    check_transcript video_id listed
    = Ret {| reply_body := JsonHasTranscript true None; reply_code := 200 |}.
Proof.
  intros video_id language_arg listed r. unfold get_transcript, check_transcript.
  destruct video_id as [[|c vid]|]; [intros H; by simplify_eq| |intros H; by simplify_eq].
  destruct listed as [tl|e]; [done|].
  destruct (is_Exception e); intros H; by simplify_eq.
Qed.

Lemma check_agrees_with_get_transcript_witness :
  check_transcript (Some "abc") (Ret Sample.only_hindi)
  = Ret {| reply_body := JsonHasTranscript true None; reply_code := 200 |}.
Proof.
  apply (check_agrees_with_get_transcript (Some "abc") (Some "fr")
           (Ret Sample.only_hindi)
           {| resp_body :=
                JsonTranscript (join_lines ["[00:00] Bonjour"; "[01:05] Au revoir"])
                  "French" true;
              resp_code := 200 |}).
  - vm_compute. reflexivity.
  - reflexivity.
Defined.

(** X25: the language list has one item per listed transcript, in the
    order of the listing, with the code, name and generated flag of that
    transcript; and it is answered (200) exactly when the check, given a
    video id, says [hasTranscript: true] on the same listing. *)
Theorem languages_follow_listing :
  forall vid (listed : outcome (list Transcript)),
    vid <> "" ->
    (forall transcripts,
        listed = Ret transcripts ->
        exists items,
          get_transcript_languages listed
          = Ret {| reply_body := JsonLanguages items; reply_code := 200 |}
          /\ Forall2 (fun t i =>
                        li_code i = language_code t /\ li_name i = language t
                        /\ li_isGenerated i = is_generated t)
               transcripts items)
    /\ ((exists items,
            get_transcript_languages listed
            = Ret {| reply_body := JsonLanguages items; reply_code := 200 |})
        <-> check_transcript (Some vid) listed
            = Ret {| reply_body := JsonHasTranscript true None; reply_code := 200 |}).
Proof.
  intros vid listed Hv. split.
  - intros transcripts ->. eexists. split; [done|].
    induction transcripts as [|t ts IH]; simpl; constructor; [done|exact IH].
  - unfold get_transcript_languages, check_transcript.
    destruct vid as [|c vid]; [done|].
    destruct listed as [ts|e].
    + split; [done|]. intros _. by eexists.
    + destruct (is_Exception e); split; try done; by intros [items H].
Qed.

Lemma languages_follow_listing_witness :
  exists items,
    get_transcript_languages (Ret [Sample.hindi_auto; Sample.french])
    = Ret {| reply_body := JsonLanguages items; reply_code := 200 |}
    /\ Forall2 (fun t i =>
                  li_code i = language_code t /\ li_name i = language t
                  /\ li_isGenerated i = is_generated t)
         [Sample.hindi_auto; Sample.french] items.
Proof.
  destruct (languages_follow_listing "abc" (Ret [Sample.hindi_auto; Sample.french]))
    as [Hitems _]; [discriminate|].
  exact (Hitems _ eq_refl).
Defined.

(** ** [/summarize]: what the status codes mean *)

Section SummarizeFacts.

Variable model : Type.
Variable GenerativeModel : string -> string -> outcome model.
Variable generate_content : model -> string -> pyval -> outcome gen_response.
Variable str_block_reason : Z -> string.

Local Abbreviation summarize :=
  (summarize_text model GenerativeModel generate_content str_block_reason).

Lemma summarize_try_answer api_key text r :
  summarize_try model GenerativeModel generate_content str_block_reason api_key text
  = Ret r ->
  exists summary, r = {| resp_body := JsonSummary summary; resp_code := 200 |}.
Proof.
  unfold summarize_try.
  destruct (get_gemini_model _ _ _) as [m|e]; [|done]. simpl.
  destruct (generate_content m prompt text) as [response|e]; [|done]. simpl.
  destruct (negb _); [done|].
  destruct (response_text response) as [summary|e]; [|done]. simpl.
  intros H. simplify_eq. by eexists.
Qed.

(** X26: the handler answers with one of four codes, 200, 400, 401 or
    500; a 401 is always the answer [No API key provided] to a request
    whose key header is absent or empty, whatever the model call would
    have raised: no answer carries the invalid-key text. *)
Theorem summarize_codes :
  forall data api_key r,
    summarize data api_key = Ret r ->
    (resp_code r = 200 /\ exists summary, resp_body r = JsonSummary summary)
    \/ (resp_code r = 400 /\ exists msg, resp_body r = JsonError msg None)
    \/ (resp_code r = 401
        /\ resp_body r = JsonError "No API key provided" None
        /\ missing api_key)
    \/ (resp_code r = 500
        /\ exists details,
             resp_body r
             = JsonError "Failed to generate summary. Please try again later."
                 (Some details)).
Proof.
  intros data api_key r. unfold summarize_text.
  assert (forall e,
             (if is_Exception e
              then Ret (jsonify_code (JsonError (str_exn e) None) 400)
              else Raise e) = Ret r ->
             resp_code r = 400 /\ exists msg, resp_body r = JsonError msg None)
    as Hexcept.
  { intros e. destruct (is_Exception e); intros H; simplify_eq.
    split; [done|]. by eexists. }
  destruct data as [[members|]|e];
    [|intros H; right; left; by apply Hexcept in H
     |intros H; right; left; by apply Hexcept in H].
  destruct (negb (truthy (get_or members "text" (PyStr "")))).
  { intros H. simplify_eq. right. left. split; [done|]. by eexists. }
  destruct (negb (truthy (default PyNone (PyStr <$> api_key)))) eqn:Hkey.
  { intros H. simplify_eq. right. right. left. split; [done|]. split; [done|].
    unfold missing. destruct api_key as [[|c k]|]; auto. done. }
  destruct (summarize_try _ _ _ _ _ _) as [r'|e] eqn:Htry.
  - intros H. simplify_eq. left.
    destruct (summarize_try_answer _ _ _ Htry) as [summary ->].
    split; [done|]. by eexists.
  - destruct (is_Exception e); [|done].
    rewrite invalid_key_test_never_holds.
    intros H. simplify_eq. right. right. right. split; [done|]. by eexists.
Qed.

(** X27: the model is not called for a request without text or without
    key: the answer to such a request is the same whatever the model
    collaborators are. *)
Theorem summarize_rejects_before_calling :
  forall (model' : Type) GenerativeModel' generate_content' str_block_reason'
         members api_key,
    truthy (get_or members "text" (PyStr "")) = false \/ missing api_key ->
    summarize (Ret (JsonObject members)) api_key
    = summarize_text model' GenerativeModel' generate_content' str_block_reason'
        (Ret (JsonObject members)) api_key.
Proof.
  intros model' GM' gc' sbr' members api_key H. unfold summarize_text.
  destruct (truthy (get_or members "text" (PyStr ""))); [|done].
  destruct H as [H|[->| ->]]; done.
Qed.

(** X28: when the model blocks the prompt, the answer is 500 with the
    generic error and the block reason in [details]; the text of the
    response is not read. *)
Theorem summarize_blocked_prompt :
  forall members k m response,
    truthy (get_or members "text" (PyStr "")) = true ->
    k <> "" ->
    GenerativeModel k "gemini-pro" = Ret m ->
    generate_content m prompt (get_or members "text" (PyStr "")) = Ret response ->
    block_reason response <> 0 ->
    summarize (Ret (JsonObject members)) (Some k)
    = Ret {| resp_body :=
               JsonError "Failed to generate summary. Please try again later."
                 (Some ("Content blocked: "
                        +:+ str_block_reason (block_reason response)));
             resp_code := 500 |}.
Proof.
  intros members k m response Ht Hk Hm Hg Hb.
  unfold summarize_text. rewrite Ht. simpl.
  destruct k as [|c k]; [done|]. simpl.
  unfold summarize_try, get_gemini_model. rewrite Hm. simpl. rewrite Hg. simpl.
  apply Z.eqb_neq in Hb. rewrite Hb. simpl.
  by rewrite invalid_key_test_never_holds.
Qed.

End SummarizeFacts.

Lemma summarize_codes_witness :
  let r := {| resp_body :=
                JsonError "Failed to generate summary. Please try again later."
                  (Some "400 API key not valid. Please pass a valid API key.");
              resp_code := 500 |} in
  (resp_code r = 200 /\ exists summary, resp_body r = JsonSummary summary)
  \/ (resp_code r = 400 /\ exists msg, resp_body r = JsonError msg None)
  \/ (resp_code r = 401
      /\ resp_body r = JsonError "No API key provided" None
      /\ missing (Some "wrong-key"))
  \/ (resp_code r = 500
      /\ exists details,
           resp_body r
           = JsonError "Failed to generate summary. Please try again later."
               (Some details)).
Proof.
  apply (summarize_codes unit (fun _ _ => Ret tt)
           (fun _ _ _ => Raise (Exn OtherException Sample.key_rejected))
           (fun _ => "SAFETY")
           (Ret (JsonObject {[ "text" := PyStr "a transcript" ]})) (Some "wrong-key")).
  vm_compute. reflexivity.
Defined.

Lemma summarize_rejects_before_calling_witness :
  Sample.summarize Sample.key_rejected
    (Ret (JsonObject {[ "text" := PyStr "a transcript" ]})) None
  = Example.summarize_blocked
      (Ret (JsonObject {[ "text" := PyStr "a transcript" ]})) None.
Proof.
  apply (summarize_rejects_before_calling unit (fun _ _ => Ret tt)
           (fun _ _ _ => Raise (Exn OtherException Sample.key_rejected))
           (fun _ => "SAFETY") unit (fun _ _ => Ret tt)
           (fun _ _ _ => Ret Example.blocked) (fun _ => "SAFETY")
           {[ "text" := PyStr "a transcript" ]} None).
  right. by left.
Defined.

Lemma summarize_blocked_prompt_witness :
  Example.summarize_blocked
    (Ret (JsonObject {[ "text" := PyStr "a transcript" ]})) (Some "a-key")
  = Ret {| resp_body :=
             JsonError "Failed to generate summary. Please try again later."
               (Some "Content blocked: SAFETY");
           resp_code := 500 |}.
Proof.
  exact (summarize_blocked_prompt unit (fun _ _ => Ret tt)
           (fun _ _ _ => Ret Example.blocked) (fun _ => "SAFETY")
           {[ "text" := PyStr "a transcript" ]} "a-key" tt Example.blocked
           eq_refl ltac:(discriminate) eq_refl eq_refl ltac:(discriminate)).
Defined.

(** ** [/playlist-info] *)

Lemma playlist_videos_complete entries :
  Forall (fun e : dict => is_Some (e !! "id") /\ is_Some (e !! "title")) entries ->
  exists videos,
    playlist_videos entries = Ret videos
    /\ Forall2 (fun (e : dict) v =>
                  e !! "id" = Some (pv_id v) /\ e !! "title" = Some (pv_title v)
                  /\ pv_duration v = default (PyInt 0) (e !! "duration"))
         entries videos.
Proof.
  induction 1 as [|e entries [[i Hi] [t Ht]] _ (videos & Hvs & Hall)].
  - exists []. by split; [|constructor].
  - eexists (_ :: videos). simpl.
    unfold playlist_video_of, getitem. rewrite Hi, Ht. simpl. rewrite Hvs. simpl.
    split; [done|]. constructor; [|done]. by simpl.
Qed.

Lemma playlist_videos_incomplete entries e :
  e ∈ entries -> e !! "id" = None \/ e !! "title" = None ->
  exists err,
    playlist_videos entries = Raise err
    /\ exn_cls err = KeyError
    /\ (exn_msg err = "'id'" \/ exn_msg err = "'title'").
Proof.
  intros Hin Hmiss.
  induction entries as [|g rest IH]; [by apply elem_of_nil in Hin|].
  simpl. unfold playlist_video_of at 1. unfold getitem.
  destruct (g !! "id") as [i|] eqn:Hi; simpl;
    [|eexists; split; [done|]; by auto].
  destruct (g !! "title") as [t|] eqn:Ht; simpl;
    [|eexists; split; [done|]; by auto].
  apply elem_of_cons in Hin as [->|Hin].
  - destruct Hmiss; congruence.
  - destruct (IH Hin) as (err & -> & Herr). simpl. by exists err.
Qed.

(** X29: for a playlist whose entries all have an [id] and a [title],
    the answer (200) lists one video per entry, in the order of the
    entries, with that id and title and with duration 0 where the entry
    has none; the title of the answer is ["Playlist"] when the info has
    none. *)
Theorem playlist_lists_every_entry :
  forall pid info entries,
    pid <> "" ->
    pl_entries info = Val entries ->
    Forall (fun e : dict => is_Some (e !! "id") /\ is_Some (e !! "title")) entries ->
    exists videos,
      get_playlist_info (Some pid) (Ret info)
      = Ret {| reply_body := JsonPlaylist (fget_or (pl_title info) "Playlist") videos;
               reply_code := 200 |}
      /\ Forall2 (fun (e : dict) v =>
                    e !! "id" = Some (pv_id v) /\ e !! "title" = Some (pv_title v)
                    /\ pv_duration v = default (PyInt 0) (e !! "duration"))
           entries videos.
Proof.
  intros pid info entries Hpid Hentries Hall.
  destruct (playlist_videos_complete entries Hall) as (videos & Hvs & Hf).
  exists videos. split; [|done]. unfold get_playlist_info.
  destruct pid as [|c pid]; [done|]. by rewrite Hentries, Hvs.
Qed.

Lemma playlist_lists_every_entry_witness :
  exists videos,
    get_playlist_info (Some "PL1") (Ret Example.playlist)
    = Ret {| reply_body := JsonPlaylist (Some "Mix") videos; reply_code := 200 |}
    /\ Forall2 (fun (e : dict) v =>
                  e !! "id" = Some (pv_id v) /\ e !! "title" = Some (pv_title v)
                  /\ pv_duration v = default (PyInt 0) (e !! "duration"))
         [ {[ "id" := PyStr "v1"; "title" := PyStr "First"; "duration" := PyInt 61 ]};
           {[ "id" := PyStr "v2"; "title" := PyStr "Second" ]} ] videos.
Proof.
  apply (playlist_lists_every_entry "PL1" Example.playlist).
  - discriminate.
  - reflexivity.
  - repeat constructor; by eexists.
Defined.

(** X30: one entry without [id] or without [title] fails the whole
    playlist: the answer is 400 and its error text is the missing key,
    ['id'] or ['title'], with no video listed. *)
Theorem playlist_fails_on_incomplete_entry :
  forall pid info entries e,
    pid <> "" ->
    pl_entries info = Val entries ->
    e ∈ entries ->
    e !! "id" = None \/ e !! "title" = None ->
    get_playlist_info (Some pid) (Ret info)
    = Ret {| reply_body := JsonListingError "'id'"; reply_code := 400 |}
    \/ get_playlist_info (Some pid) (Ret info)
       = Ret {| reply_body := JsonListingError "'title'"; reply_code := 400 |}.
Proof.
  intros pid info entries e Hpid Hentries Hin Hmiss.
  destruct (playlist_videos_incomplete entries e Hin Hmiss)
    as ([cls msg] & Hvs & Hcls & Hmsg).
  simpl in Hcls, Hmsg. subst cls.
  unfold get_playlist_info. destruct pid as [|c pid]; [done|].
  rewrite Hentries, Hvs. simpl.
  destruct Hmsg as [->| ->]; [by left|by right].
Qed.

Lemma playlist_fails_on_incomplete_entry_witness :
  get_playlist_info (Some "PL1") (Ret Example.broken_playlist)
  = Ret {| reply_body := JsonListingError "'id'"; reply_code := 400 |}
  \/ get_playlist_info (Some "PL1") (Ret Example.broken_playlist)
     = Ret {| reply_body := JsonListingError "'title'"; reply_code := 400 |}.
Proof.
  apply (playlist_fails_on_incomplete_entry "PL1" Example.broken_playlist
           [ {[ "id" := PyStr "v1"; "title" := PyStr "First" ]}; Example.untitled ]
           Example.untitled).
  - discriminate.
  - reflexivity.
  - apply list_elem_of_lookup. by exists 1%nat.
  - by right.
Defined.
